(** * Course allotment: the cost model, the section expander and the allocator

    A shallow embedding of [algo.py].  The Python functions [compute_cost],
    [expand_courses], [build_cost_matrix], [allocate_courses] and
    [run_allotment] are transcribed as Rocq functions over

    - a small universe of Python values for the loosely typed course
      dictionaries (which [expand_courses] copies wholesale),
    - typed records for faculty, weights and limits,
    - exact rationals [Q] for Python's numbers (rounding of binary floating
      point is not modelled; the non-finite floats appear as cells of the
      cost matrix only),
    - an error monad for the exceptions Python raises.

    [linear_sum_assignment] is SciPy's and not part of the repository: the
    allocator is parameterised by it. *)

From Stdlib Require Import Ascii QArith Qminmax Lqa.
From stdpp Require Import gmap strings list pretty sorting.

Open Scope Z_scope.

(** ** Python values and exceptions *)

(** The values a course dictionary holds: integers, strings and [None].
    (Booleans and floats are left out of the universe.) *)
Inductive pyval : Type :=
  | PyInt (z : Z)
  | PyStr (s : string)
  | PyNone.

(** An exception, identified by the name of its class. *)
Inductive exn : Type :=
  | PyExc (cls : string).

Definition KeyError : exn := PyExc "KeyError".
Definition TypeError : exn := PyExc "TypeError".
Definition ValueError : exn := PyExc "ValueError".
Definition IndexError : exn := PyExc "IndexError".

(** The two error kinds the specification names.  Nothing in [algo.py]
    defines or raises them. *)
Definition InvalidInputError : exn := PyExc "InvalidInputError".
Definition InvalidMatrixError : exn := PyExc "InvalidMatrixError".

(** A computation that either raises or returns. *)
Definition result (A : Type) : Type := (exn + A)%type.

Definition raise {A : Type} (e : exn) : result A := inl e.

#[global] Instance result_ret : MRet result := fun A a => inr a.

#[global] Instance result_bind : MBind result := fun A B k r =>
  match r with
  | inl e => inl e
  | inr a => k a
  end.

#[global] Instance result_fmap : FMap result := fun A B f r =>
  match r with
  | inl e => inl e
  | inr a => inr (f a)
  end.

(** [for x in xs: acc = body(acc, x)], stopping at the first exception. *)
Fixpoint for_each {A S : Type} (body : S -> A -> result S) (xs : list A) (acc : S)
  : result S :=
  match xs with
  | [] => mret acc
  | x :: xs' => acc' ← body acc x; for_each body xs' acc'
  end.

(** A dictionary with string keys. *)
Abbreviation dict := (gmap string pyval).

(** [d[k]] *)
Definition getitem (d : dict) (k : string) : result pyval :=
  match d !! k with
  | Some v => mret v
  | None => raise KeyError
  end.

(** [d.get(k, dflt)] *)
Definition dict_get (d : dict) (k : string) (dflt : pyval) : pyval :=
  default dflt (d !! k).

(** [a + b] on the value universe. *)
Definition py_add (a b : pyval) : result pyval :=
  match a, b with
  | PyInt x, PyInt y => mret (PyInt (x + y))
  | PyStr x, PyStr y => mret (PyStr (x +:+ y))
  | _, _ => raise TypeError
  end.

(** [range(a, b)]: the integers [a, a+1, ..., b-1]; empty when [b <= a]. *)
Definition range_Z (a b : Z) : list Z :=
  (fun i : nat => a + Z.of_nat i) <$> seq 0 (Z.to_nat (b - a)).

Definition py_range (a b : pyval) : result (list Z) :=
  match a, b with
  | PyInt x, PyInt y => mret (range_Z x y)
  | _, _ => raise TypeError
  end.

(** [str(v)], as an f-string formats a value. *)
Definition py_str (v : pyval) : string :=
  match v with
  | PyInt z => pretty z
  | PyStr s => s
  | PyNone => "None"
  end.

(** [v == s] for a string literal [s]. *)
Definition py_eq_str (v : pyval) (s : string) : bool :=
  match v with
  | PyStr t => bool_decide (t = s)
  | _ => false
  end.

(** ** Section expander *)

(** The body of the inner loop of [expand_courses]: a copy of the course
    with [course_code], [code] and [section] set. *)
Definition section_entry (course : dict) (original_code : pyval) (sec : Z) : dict :=
  <["section" := PyInt sec]>
    (<["code" := PyStr (py_str original_code +:+ "-S" +:+ pretty sec)]>
       (<["course_code" := original_code]> course)).

(** One iteration of the outer loop of [expand_courses]. *)
Definition expand_course (expanded : list dict) (course : dict) : result (list dict) :=
  let num_sections := dict_get course "sections" (PyInt 1) in
  original_code ← getitem course "code";
  stop ← py_add num_sections (PyInt 1);
  secs ← py_range (PyInt 1) stop;
  mret (fold_left
          (fun acc sec => acc ++ [section_entry course original_code sec])
          secs expanded).

Definition expand_courses (courses : list dict) : result (list dict) :=
  for_each expand_course courses [].

(** ** Cost model *)

(** A faculty record (§3 of the specification).  Numeric fields are
    rationals; ranks and history counts are integers. *)
Record Faculty : Type := {
  name : string;
  preferences : gmap string Z;
  courses_left : Q;
  ug_left : Q;
  current_semester_ug : Q;
  current_semester_pg : Q;
  history : gmap string Z;
  timestamp : Q
}.

(** The [weights] dictionary: keys [overall], [ug], [history], [timestamp]. *)
Record Weights : Type := {
  w_overall : Q;
  w_ug : Q;
  w_history : Q;
  w_timestamp : Q
}.

(** The [limits] dictionary. *)
Record Limits : Type := {
  max_courses : Q;
  max_ug : Q;
  ug_semester : Q;
  pg_semester : Q
}.

(** [m.get(k, None)] for a dictionary whose keys are strings and a key that
    may be any value: only a string can be found. *)
Definition lookup_key {V : Type} (m : gmap string V) (k : pyval) : option V :=
  match k with
  | PyStr s => m !! s
  | _ => None
  end.

(** [a >= b] on numbers. *)
Definition Qge_bool (a b : Q) : bool := Qle_bool b a.

Section CostModel.
Local Open Scope Q_scope.

Definition compute_cost (faculty : Faculty) (course : dict)
    (weights : Weights) (limits : Limits) : result Q :=
  course_code ← getitem course "course_code";
  (* 1. Preference cost *)
  let pref := lookup_key (preferences faculty) course_code in
  let pref_cost :=
    match pref with
    | None => 100
    | Some p =>
        if (p =? 1)%Z then 0
        else if (p =? 2)%Z then 10
        else if (p =? 3)%Z then 20
        else 30
    end in
  (* 2. Workload cost *)
  let overall_penalty :=
    w_overall weights * (max_courses limits - courses_left faculty) in
  type ← getitem course "type";
  let ug_penalty :=
    if py_eq_str type "UG"
    then w_ug weights * (max_ug limits - ug_left faculty)
    else 0 in
  let workload_cost := overall_penalty + ug_penalty in
  (* 3. Semester cost *)
  let semester_cost :=
    if py_eq_str type "UG" then
      if Qge_bool (current_semester_ug faculty) (ug_semester limits)
      then 0 + 1000 else 0
    else if py_eq_str type "PG" then
      if Qge_bool (current_semester_pg faculty) (pg_semester limits)
      then 0 + 1000 else 0
    else 0 in
  (* 4. Historical cost *)
  let history_cost :=
    w_history weights
    * inject_Z (default 0%Z (lookup_key (history faculty) course_code)) in
  (* 5. Timestamp cost *)
  let timestamp_cost :=
    if py_eq_str type "UG" then w_timestamp weights * timestamp faculty
    else if py_eq_str type "PG" then w_timestamp weights * (1 - timestamp faculty)
    else 0 in
  let total_cost :=
    pref_cost + workload_cost + semester_cost + history_cost + timestamp_cost in
  mret total_cost.

End CostModel.

(** ** Cost matrix *)

(** A cell of a float matrix: a finite number or one of the non-finite floats. *)
Inductive cell : Type :=
  | Fin (q : Q)
  | PosInf
  | NegInf
  | NaN.

(** A two-dimensional array with its shape ([shape0] rows, [shape1] columns);
    the shape is kept apart from the rows because an array with no rows
    still has a number of columns. *)
Record ndarray : Type := {
  shape0 : nat;
  shape1 : nat;
  data : list (list cell)
}.

(** [m[i, j]] for indices in range. *)
Definition cell_at (m : ndarray) (i j : nat) : cell :=
  default NaN (data m !! i ≫= (.!! j)).

(** The nested loop of [build_cost_matrix] fills every cell of the zero
    matrix in row-major order; the first exception ends it. *)
Definition build_cost_matrix (faculties : list Faculty) (expanded_courses : list dict)
    (weights : Weights) (limits : Limits) : result ndarray :=
  let num_faculties := length faculties in
  let num_sections := length expanded_courses in
  rows ← mapM (fun faculty =>
            mapM (fun course => Fin <$> compute_cost faculty course weights limits)
                 expanded_courses)
          faculties;
  mret {| shape0 := num_faculties; shape1 := num_sections; data := rows |}.

(** ** Allocator *)

(** [xs[i]] on a list. *)
Definition index {A : Type} (xs : list A) (i : nat) : result A :=
  match xs !! i with
  | Some x => mret x
  | None => raise IndexError
  end.

Section Allocator.

(** SciPy's [linear_sum_assignment]: given the cost matrix it raises or
    returns the arrays [row_ind] and [col_ind]. *)
Variable linear_sum_assignment : ndarray -> result (list nat * list nat).

(** [unassigned] is the list of a Python set; the order of its elements is
    that of the set's iteration, here of [elements]. *)
Definition allocate_courses (cost_matrix : ndarray)
  : result (list (nat * nat) * list nat) :=
  '(row_ind, col_ind) ← linear_sum_assignment cost_matrix;
  let allocation := zip row_ind col_ind in
  let assigned_sections : gset nat := list_to_set col_ind in
  let total_sections : gset nat := list_to_set (seq 0 (shape1 cost_matrix)) in
  let unassigned := elements (total_sections ∖ assigned_sections) in
  mret (allocation, unassigned).

(** [run_allotment(faculties, courses)]: two parameters; the weights and the
    limits are the literals written in its body.  (What it prints is not
    modelled.) *)
Definition run_allotment (faculties : list Faculty) (courses : list dict)
  : result (gmap string pyval * list pyval) :=
  expanded_courses ← expand_courses courses;
  let weights :=
    {| w_overall := 1; w_ug := 1; w_history := 5; w_timestamp := 10 |} in
  let limits :=
    {| max_courses := 5; max_ug := 2; ug_semester := 1; pg_semester := 2 |} in
  cost_matrix ← build_cost_matrix faculties expanded_courses weights limits;
  '(allocation, unassigned) ← allocate_courses cost_matrix;
  allocations ←
    for_each (fun (allocations : gmap string pyval) '(faculty_idx, section_idx) =>
                faculty ← index faculties faculty_idx;
                let faculty_name := name faculty in
                section ← index expanded_courses section_idx;
                section_code ← getitem section "code";
                mret (<[faculty_name := section_code]> allocations))
             allocation ∅;
  unallotted_sections ←
    for_each (fun (unallotted_sections : list pyval) section_idx =>
                section ← index expanded_courses section_idx;
                section_code ← getitem section "code";
                mret (unallotted_sections ++ [section_code]))
             unassigned [];
  mret (allocations, unallotted_sections).

End Allocator.

(** ** The matching primitive *)

(** A cost matrix proper: the rows agree with the shape and every cell is a
    finite number. *)
Definition is_finite (c : cell) : bool :=
  match c with
  | Fin _ => true
  | _ => false
  end.

Definition well_shaped (m : ndarray) : Prop :=
  length (data m) = shape0 m /\ Forall (fun row => length row = shape1 m) (data m).

Definition all_finite (m : ndarray) : Prop :=
  Forall (Forall (fun c => is_finite c = true)) (data m).

Definition has_nonfinite (m : ndarray) : Prop :=
  exists i j c, data m !! i ≫= (.!! j) = Some c /\ is_finite c = false.

(** The number in cell [(i, j)] of a cost matrix. *)
Definition cost_at (m : ndarray) (i j : nat) : Q :=
  match cell_at m i j with
  | Fin q => q
  | _ => 0%Q
  end.

(** The sum of the matrix entries over a list of (row, column) pairs. *)
Definition total_cost (m : ndarray) (pairs : list (nat * nat)) : Q :=
  foldr (fun p acc => (cost_at m p.1 p.2 + acc)%Q) 0%Q pairs.

(** A matching of the matrix: each row at most once, each column at most
    once, all indices inside the shape. *)
Definition is_matching (m : ndarray) (pairs : list (nat * nat)) : Prop :=
  NoDup (pairs.*1) /\ NoDup (pairs.*2) /\
  Forall (fun p => (p.1 < shape0 m)%nat /\ (p.2 < shape1 m)%nat) pairs.

(** Modelled from the spec: [linear_sum_assignment] is SciPy's and absent
    from the repository.  §4.4 gives its contract on a cost matrix: a
    matching that uses each row at most once and each column at most once,
    covers [min(F, S)] pairs and has minimum total cost among such
    matchings. *)
Definition lsa_contract (lsa : ndarray -> result (list nat * list nat)) : Prop :=
  forall m, well_shaped m -> all_finite m ->
    exists row_ind col_ind,
      lsa m = inr (row_ind, col_ind) /\
      length row_ind = (shape0 m `min` shape1 m)%nat /\
      length col_ind = (shape0 m `min` shape1 m)%nat /\
      is_matching m (zip row_ind col_ind) /\
      forall pairs, is_matching m pairs ->
        length pairs = (shape0 m `min` shape1 m)%nat ->
        (total_cost m (zip row_ind col_ind) <= total_cost m pairs)%Q.

(** *** An executable reference for the primitive *)

(** All duplicate-free lists of length [n] drawn from [avail]. *)
Fixpoint injections (n : nat) (avail : list nat) : list (list nat) :=
  match n with
  | O => [[]]
  | S n' => c ← avail; (c ::.) <$> injections n' (filter (.≠ c) avail)
  end.

(** Costs extended with [+inf] ([None]), which SciPy reads as a forbidden
    pair. *)
Definition cell_ecost (c : cell) : option Q :=
  match c with
  | Fin q => Some q
  | _ => None
  end.

Definition eplus (a b : option Q) : option Q :=
  match a, b with
  | Some x, Some y => Some (x + y)%Q
  | _, _ => None
  end.

Definition ele (a b : option Q) : bool :=
  match a, b with
  | Some x, Some y => Qle_bool x y
  | _, None => true
  | None, Some _ => false
  end.

Definition assignment_ecost (m : ndarray) (pairs : list (nat * nat)) : option Q :=
  foldr (fun p acc => eplus (cell_ecost (cell_at m p.1 p.2)) acc) (Some 0%Q) pairs.

(** The first element of least extended cost. *)
Definition argmin {A : Type} (f : A -> option Q) (best : A) (xs : list A) : A :=
  foldl (fun best x => if ele (f best) (f x) then best else x) best xs.

(** Every way of pairing all of the shorter side with distinct indices of
    the longer side. *)
Definition candidates (m : ndarray) : list (list (nat * nat)) :=
  if (shape0 m <=? shape1 m)%nat
  then zip (seq 0 (shape0 m)) <$> injections (shape0 m) (seq 0 (shape1 m))
  else (fun rows => zip rows (seq 0 (shape1 m)))
         <$> injections (shape1 m) (seq 0 (shape0 m)).

Definition invalid_entry (c : cell) : bool :=
  match c with
  | NaN | NegInf => true
  | _ => false
  end.

Definition by_row : relation (nat * nat) := fun p q => (p.1 <= q.1)%nat.

#[global] Instance by_row_dec : RelDecision by_row :=
  fun p q => decide (p.1 <= q.1)%nat.

(** Modelled from the spec: a stand-in for SciPy's [linear_sum_assignment],
    which the repository imports and does not contain.  It finds the minimum
    of §4.4 by exhaustive search and returns the pairs ordered by row.  On
    the non-finite floats it does what SciPy documents: [ValueError] for a
    matrix with a NaN or [-inf] entry, [+inf] entries are pairs that cannot be
    chosen, [ValueError] when no assignment avoids them.  Which of several
    minimal matchings is returned is the search's choice, not SciPy's. *)
Definition lsa_model (m : ndarray) : result (list nat * list nat) :=
  if existsb (existsb invalid_entry) (data m) then raise ValueError
  else
    match candidates m with
    | [] => mret ([], [])
    | c :: cs =>
        let best := argmin (assignment_ecost m) c cs in
        match assignment_ecost m best with
        | None => raise ValueError
        | Some _ =>
            let sorted := merge_sort by_row best in
            mret (sorted.*1, sorted.*2)
        end
    end.

(** ** The specification's reading of the components *)

(** *** §4.2: the five cost components *)

Section SpecCost.
Local Open Scope Q_scope.

Definition spec_preference_cost (rank : option Z) : Q :=
  match rank with
  | Some 1%Z => 0
  | Some 2%Z => 10
  | Some 3%Z => 20
  | Some _ => 30
  | None => 100
  end.

Definition spec_workload_cost (f : Faculty) (type : string) (w : Weights) (l : Limits) : Q :=
  w_overall w * (max_courses l - courses_left f)
  + (if bool_decide (type = "UG") then w_ug w * (max_ug l - ug_left f) else 0).

Definition spec_semester_cost (f : Faculty) (type : string) (l : Limits) : Q :=
  if bool_decide (type = "UG") && Qge_bool (current_semester_ug f) (ug_semester l)
     || bool_decide (type = "PG") && Qge_bool (current_semester_pg f) (pg_semester l)
  then 1000 else 0.

Definition spec_history_cost (f : Faculty) (code : string) (w : Weights) : Q :=
  w_history w * inject_Z (default 0%Z (history f !! code)).

Definition spec_timestamp_cost (f : Faculty) (type : string) (w : Weights) : Q :=
  if bool_decide (type = "UG") then w_timestamp w * timestamp f
  else if bool_decide (type = "PG") then w_timestamp w * (1 - timestamp f)
  else 0.

Definition spec_cost (f : Faculty) (code type : string) (w : Weights) (l : Limits) : Q :=
  spec_preference_cost (preferences f !! code)
  + spec_workload_cost f type w l
  + spec_semester_cost f type l
  + spec_history_cost f code w
  + spec_timestamp_cost f type w.

(** §4.2: the default configuration. *)
Definition default_weights : Weights :=
  {| w_overall := 1; w_ug := 1; w_history := 5; w_timestamp := 10 |}.

Definition default_limits : Limits :=
  {| max_courses := 5; max_ug := 2; ug_semester := 1; pg_semester := 2 |}.

(** §3: the constraints on a faculty record. *)
Definition faculty_ok (f : Faculty) : Prop :=
  0 <= courses_left f /\ 0 <= ug_left f /\
  0 <= current_semester_ug f /\ 0 <= current_semester_pg f /\
  0 <= timestamp f <= 1 /\
  map_Forall (fun _ rank => (0 < rank)%Z) (preferences f) /\
  map_Forall (fun _ count => (0 <= count)%Z) (history f).

End SpecCost.

(** An expanded section as the cost model reads it: a course code and a
    type, both strings. *)
Definition section_of (course : dict) (code type : string) : Prop :=
  course !! "course_code" = Some (PyStr code) /\ course !! "type" = Some (PyStr type).

(** *** §3 and §4.1: course requirements and their expansion *)

(** The value of [sections], 1 when the field is missing. *)
Definition sections_of (c : dict) : Z :=
  match dict_get c "sections" (PyInt 1) with
  | PyInt k => k
  | _ => 0
  end.

(** A course requirement of §3 as far as the expander reads it: [code] is a
    string and [sections], when present, a positive integer. *)
Definition requirement_ok (c : dict) : Prop :=
  (exists s, c !! "code" = Some (PyStr s)) /\
  (c !! "sections" = None \/ exists k, c !! "sections" = Some (PyInt k) /\ 0 < k).

(** What [expand_courses] needs in order to return: a [code] of any kind and
    a [sections] that is missing or an integer of any sign. *)
Definition expandable (c : dict) : Prop :=
  is_Some (c !! "code") /\
  (c !! "sections" = None \/ exists k, c !! "sections" = Some (PyInt k)).

Definition sum_sections (cs : list dict) : Z :=
  foldr (fun c acc => sections_of c + acc) 0 cs.

(** The (requirement, index) pairs in the order of §3: grouped by
    requirement, indices 1..sections ascending. *)
Definition spec_units (cs : list dict) : list (dict * Z) :=
  c ← cs; (fun i : nat => (c, Z.of_nat i)) <$> seq 1 (Z.to_nat (sections_of c)).

(** Entry [e] is section [i] of requirement [c]: it carries the parent's
    code as [course_code], the label [{code}-S{i}], the index, and the
    parent's type. *)
Definition is_section (e : dict) (u : dict * Z) : Prop :=
  exists s, u.1 !! "code" = Some (PyStr s) /\
    e !! "course_code" = Some (PyStr s) /\
    e !! "code" = Some (PyStr (s +:+ "-S" +:+ pretty u.2)) /\
    e !! "section" = Some (PyInt u.2) /\
    e !! "type" = u.1 !! "type".

(** *** §6: the entry point with caller-supplied configuration *)

Section SpecEntry.

Variable linear_sum_assignment : ndarray -> result (list nat * list nat).

Definition spec_allot (weights : Weights) (limits : Limits)
    (faculties : list Faculty) (expanded_courses : list dict)
  : result (gmap string pyval * list pyval) :=
  cost_matrix ← build_cost_matrix faculties expanded_courses weights limits;
  '(allocation, unassigned) ← allocate_courses linear_sum_assignment cost_matrix;
  allocations ←
    for_each (fun (allocations : gmap string pyval) '(faculty_idx, section_idx) =>
                faculty ← index faculties faculty_idx;
                section ← index expanded_courses section_idx;
                section_code ← getitem section "code";
                mret (<[name faculty := section_code]> allocations))
             allocation ∅;
  unallotted_sections ←
    for_each (fun (unallotted_sections : list pyval) section_idx =>
                section ← index expanded_courses section_idx;
                section_code ← getitem section "code";
                mret (unallotted_sections ++ [section_code]))
             unassigned [];
  mret (allocations, unallotted_sections).

(** [run_allotment(faculties, courses, weights?, limits?)] as §6 has it: the
    caller's configuration when given, the defaults otherwise. *)
Definition spec_run_allotment (faculties : list Faculty) (courses : list dict)
    (weights : option Weights) (limits : option Limits)
  : result (gmap string pyval * list pyval) :=
  expanded_courses ← expand_courses courses;
  spec_allot (default default_weights weights) (default default_limits limits)
             faculties expanded_courses.

End SpecEntry.

(** ** Auxiliary definitions for the proofs *)

(** What one requirement adds to the output of [expand_courses]. *)
Definition entries_of (c : dict) : list dict :=
  match c !! "code" with
  | Some code => section_entry c code <$> range_Z 1 (sections_of c + 1)
  | None => []
  end.

(** ** Sample inputs *)

Definition two_sections : dict :=
  {[ "code" := PyStr "C1"; "type" := PyStr "UG"; "sections" := PyInt 2 ]}.

Definition pg_course : dict := {[ "code" := PyStr "C2"; "type" := PyStr "PG" ]}.

Definition zero_sections : dict :=
  {[ "code" := PyStr "C1"; "type" := PyStr "UG"; "sections" := PyInt 0 ]}.

Definition no_code : dict := {[ "type" := PyStr "UG"; "sections" := PyInt 2 ]}.

Definition text_sections : dict :=
  {[ "code" := PyStr "C1"; "type" := PyStr "UG"; "sections" := PyStr "2" ]}.

Definition no_type : dict := {[ "code" := PyStr "C1" ]}.

Definition one_ug_course : dict :=
  {[ "code" := PyStr "C1"; "type" := PyStr "UG"; "sections" := PyInt 1 ]}.

Definition ug_section : dict :=
  {[ "course_code" := PyStr "C1"; "type" := PyStr "UG"; "code" := PyStr "C1-S1" ]}.

(** Six courses left although [max_courses] is five. *)
Definition over_quota_faculty : Faculty :=
  {| name := "A"; preferences := {[ "C1" := 1 ]}; courses_left := 6;
     ug_left := 2; current_semester_ug := 0; current_semester_pg := 0;
     history := ∅; timestamp := 0 |}.

Definition busy_faculty : Faculty :=
  {| name := "B"; preferences := {[ "C1" := 2 ]}; courses_left := 3;
     ug_left := 1; current_semester_ug := 1; current_semester_pg := 0;
     history := {[ "C1" := 2 ]}; timestamp := 1 # 2 |}.

Definition veteran : Faculty :=
  {| name := "A"; preferences := {[ "C1" := 1 ]}; courses_left := 5;
     ug_left := 2; current_semester_ug := 0; current_semester_pg := 0;
     history := {[ "C1" := 3 ]}; timestamp := 0 |}.

Definition newcomer : Faculty :=
  {| name := "B"; preferences := {[ "C1" := 2 ]}; courses_left := 5;
     ug_left := 2; current_semester_ug := 0; current_semester_pg := 0;
     history := ∅; timestamp := 0 |}.

Definition indifferent : Faculty :=
  {| name := "C"; preferences := ∅; courses_left := 5;
     ug_left := 2; current_semester_ug := 0; current_semester_pg := 0;
     history := ∅; timestamp := 0 |}.

Definition no_history_weights : Weights :=
  {| w_overall := 1; w_ug := 1; w_history := 0; w_timestamp := 10 |}.

(** The two outputs of [run_allotment] as lists. *)
Definition listing (r : result (gmap string pyval * list pyval))
  : result (list (string * pyval) * list pyval) :=
  (fun out => (map_to_list out.1, out.2)) <$> r.

(** Whom the returned allocation gives a section, and which. *)
Definition assigned_to (who : string)
    (r : result (gmap string pyval * list pyval)) : result (option pyval) :=
  (fun out => out.1 !! who) <$> r.

Definition nan_matrix : ndarray :=
  {| shape0 := 1; shape1 := 1; data := [[NaN]] |}.

Definition inf_matrix : ndarray :=
  {| shape0 := 2; shape1 := 2;
     data := [[PosInf; Fin 1%Q]; [Fin 2%Q; PosInf]] |}.

(** Two faculty, three sections. *)
Definition wide_matrix : ndarray :=
  {| shape0 := 2; shape1 := 3;
     data := [[Fin 4%Q; Fin 1%Q; Fin 3%Q]; [Fin 2%Q; Fin 0%Q; Fin 5%Q]] |}.

(** Three faculty, two sections. *)
Definition tall_matrix : ndarray :=
  {| shape0 := 3; shape1 := 2;
     data := [[Fin 4%Q; Fin 1%Q]; [Fin 2%Q; Fin 0%Q]; [Fin 3%Q; Fin 2%Q]] |}.

(** No faculty, two sections. *)
Definition empty_matrix : ndarray :=
  {| shape0 := 0; shape1 := 2; data := [] |}.

(** ** Data preparation ([dashboard.py]) *)

(** The pure steps of the data preparation; what pandas does to the frames
    (reading, merging, dropping rows) is not modelled.  A Python string is
    its UTF-8 bytes: splitting at an ASCII character, comparing and counting
    are the same on bytes as on code points. *)

(** [s.split(sep)] for a one-character separator: never the empty list. *)
Fixpoint split_on (sep : Ascii.ascii) (s : string) : list string :=
  match s with
  | EmptyString => [EmptyString]
  | String c s' =>
      if decide (c = sep) then EmptyString :: split_on sep s'
      else
        match split_on sep s' with
        | [] => [String c EmptyString]
        | w :: ws => String c w :: ws
        end
  end.

(** The character [ch] does not occur in the string. *)
Fixpoint lacks (ch : Ascii.ascii) (s : string) : Prop :=
  match s with
  | EmptyString => True
  | String c s' => c <> ch /\ lacks ch s'
  end.

(** [s.split(sep)[0]] *)
Definition split_first (sep : Ascii.ascii) (s : string) : string :=
  match split_on sep s with
  | w :: _ => w
  | [] => EmptyString
  end.

(** [preprocess_course_details]: the lambda applied to the [code] column. *)
Definition clean_course_code (x : string) : string := split_first "/"%char x.

(** [preprocess_preference]: the two lambdas mapped over the preference
    columns, [x.split(" ")[0]] and then [x.split("/")[0]]. *)
Definition clean_preference (x : string) : string :=
  split_first "/"%char (split_first " "%char x).

(** [xs.count(x)] *)
Definition list_count (x : string) (xs : list string) : nat :=
  length (filter (x =.) xs).

(** [calculate_history(preferences, courses_str)], the helper nested in
    [combine_data]: one entry per preferred course, the number of times it
    occurs among the comma-separated courses taught. *)
Definition calculate_history (preferences : gmap string Z) (courses_str : string)
  : gmap string Z :=
  let courses := split_on ","%char courses_str in
  map_fold (fun course _ history =>
              <[course := Z.of_nat (list_count course courses)]> history)
           ∅ preferences.

(** [enumerate(xs)] *)
Definition enumerate {A : Type} (xs : list A) : list (nat * A) :=
  zip (seq 0 (length xs)) xs.

(** The dictionary comprehension of [combine_data],
    [{row[col]: i + 1 for i, col in enumerate(all_cols) if pd.notnull(row[col])}],
    on the cells [row[col]] of one row in the order of [all_cols]; [None] is
    a null cell.  A key met again takes the later value. *)
Definition row_preferences (cells : list (option string)) : gmap string Z :=
  fold_left (fun preferences '(i, cell) =>
               match cell with
               | Some course => <[course := Z.of_nat i + 1]> preferences
               | None => preferences
               end)
            (enumerate cells) ∅.

(** The normalisation of the [Timestamp] column in [combine_data], on the
    column as a list of instants in seconds: all zero when the instants
    coincide, otherwise the distance from the earliest over the range. *)
Definition normalize_timestamps (column : list Q) : list Q :=
  match column with
  | [] => []
  | t :: rest =>
      let min_time := fold_left Qmin rest t in
      let max_time := fold_left Qmax rest t in
      let total_range := (max_time - min_time)%Q in
      if Qeq_bool total_range 0 then (fun _ => 0%Q) <$> column
      else (fun x => ((x - min_time) / total_range)%Q) <$> column
  end.

(** ** Variations of a faculty record, for comparing costs *)



Definition with_timestamp (f : Faculty) (t : Q) : Faculty :=
  {| name := name f; preferences := preferences f; courses_left := courses_left f;
     ug_left := ug_left f; current_semester_ug := current_semester_ug f;
     current_semester_pg := current_semester_pg f; history := history f;
     timestamp := t |}.

(** The section labels of a list of course dictionaries. *)
Definition labels (courses : list dict) : list (option pyval) :=
  (fun c : dict => c !! "code") <$> courses.



(** More sample inputs. *)
Definition pg_section : dict :=
  {[ "course_code" := PyStr "C2"; "type" := PyStr "PG"; "code" := PyStr "C2-S1" ]}.

Definition lower_case_section : dict :=
  {[ "course_code" := PyStr "C1"; "type" := PyStr "ug"; "code" := PyStr "C1-S1" ]}.





(** A faculty who taught C1 twice and C2 once and lists only C2. *)
Definition taught_unlisted : Faculty :=
  {| name := "D"; preferences := {[ "C2" := 1 ]}; courses_left := 5;
     ug_left := 2; current_semester_ug := 0; current_semester_pg := 0;
     history := calculate_history {[ "C2" := 1 ]} "C1,C1,C2"; timestamp := 0 |}.

(** A faculty whose first PG preference is C2. *)
Definition pg_first_choice : Faculty :=
  {| name := "E";
     preferences := row_preferences [Some "U1"; Some "U2"; Some "U3";
                                     Some "C2"; Some "P2"; Some "P3"];
     courses_left := 5; ug_left := 2; current_semester_ug := 0;
     current_semester_pg := 0; history := ∅; timestamp := 0 |}.

(** * Proofs *)

(** ** Cost model: the five components *)

Lemma getitem_Some (d : dict) (k : string) (v : pyval) :
  d !! k = Some v -> getitem d k = inr v.
Proof. intros H. unfold getitem. by rewrite H. Qed.

Lemma getitem_None (d : dict) (k : string) :
  d !! k = None -> getitem d k = inl KeyError.
Proof. intros H. unfold getitem. by rewrite H. Qed.

Lemma py_eq_str_PyStr (t s : string) : py_eq_str (PyStr t) s = bool_decide (t = s).
Proof. reflexivity. Qed.

Lemma spec_preference_cost_eq (rank : option Z) :
  match rank with
  | None => 100%Q
  | Some p =>
      if p =? 1 then 0%Q else if p =? 2 then 10%Q else if p =? 3 then 20%Q else 30%Q
  end = spec_preference_cost rank.
Proof.
  destruct rank as [p|]; [|reflexivity].
  destruct (Z.eqb_spec p 1) as [->|H1]; [reflexivity|].
  destruct (Z.eqb_spec p 2) as [->|H2]; [reflexivity|].
  destruct (Z.eqb_spec p 3) as [->|H3]; [reflexivity|].
  unfold spec_preference_cost.
  destruct p as [|[[]|[]|]|]; try reflexivity; congruence.
Qed.

Lemma compute_cost_spec (f : Faculty) (course : dict)
    (code type : string) (w : Weights) (l : Limits) :
  section_of course code type ->
  compute_cost f course w l = inr (spec_cost f code type w l).
Proof.
  intros [Hcode Htype]. unfold compute_cost.
  rewrite (getitem_Some _ _ _ Hcode). cbn [mbind result_bind].
  rewrite (getitem_Some _ _ _ Htype). cbn [mbind result_bind mret result_ret lookup_key].
  rewrite !py_eq_str_PyStr, spec_preference_cost_eq.
  unfold spec_cost, spec_workload_cost, spec_semester_cost, spec_history_cost,
    spec_timestamp_cost.
  do 4 f_equal.
  destruct (decide (type = "UG")) as [->|HUG].
  - cbn. destruct (Qge_bool _ _); reflexivity.
  - rewrite (bool_decide_eq_false_2 _ HUG). cbn [andb orb].
    destruct (bool_decide (type = "PG")); cbn [andb];
      [destruct (Qge_bool _ _)|]; reflexivity.
Qed.

(** C1: on a faculty record and an expanded section of the data model,
    [compute_cost] returns exactly the sum of the five components of §4.2:
    preference (0, 10, 20 for ranks 1, 2, 3, 30 for any other rank, 100 for
    a code without a rank), workload, the semester penalty of 1000, history
    and timestamp. *)
Theorem compute_cost_five_components (f : Faculty) (course : dict)
    (code type : string) (w : Weights) (l : Limits) :
  section_of course code type ->
  compute_cost f course w l = inr (spec_cost f code type w l).
Proof.
  apply compute_cost_spec.
Qed.

Lemma compute_cost_five_components_witness :
  compute_cost busy_faculty ug_section default_weights default_limits
    = inr (spec_cost busy_faculty "C1" "UG" default_weights default_limits).
Proof.
  apply (compute_cost_five_components busy_faculty ug_section "C1" "UG").
  split; reflexivity.
Defined.

(** ** Section expander *)

Lemma for_each_app {A S : Type} (body : S -> A -> result S) (xs ys : list A) (acc : S) :
  for_each body (xs ++ ys) acc = for_each body xs acc ≫= for_each body ys.
Proof.
  revert acc. induction xs as [|x xs IH]; intros acc; [reflexivity|].
  cbn [app for_each]. destruct (body acc x) as [e|acc']; [reflexivity|]. apply IH.
Qed.

Lemma fold_left_snoc {A B : Type} (g : A -> B) (xs : list A) (acc : list B) :
  fold_left (fun acc x => acc ++ [g x]) xs acc = acc ++ (g <$> xs).
Proof.
  revert acc. induction xs as [|x xs IH]; intros acc; cbn.
  - by rewrite app_nil_r.
  - rewrite IH. by rewrite <- app_assoc.
Qed.

Lemma sections_of_None (c : dict) : c !! "sections" = None -> sections_of c = 1.
Proof. intros H. unfold sections_of, dict_get. by rewrite H. Qed.

Lemma sections_of_Some (c : dict) (k : Z) :
  c !! "sections" = Some (PyInt k) -> sections_of c = k.
Proof. intros H. unfold sections_of, dict_get. by rewrite H. Qed.

Lemma expand_course_ok (acc : list dict) (c : dict) :
  expandable c -> expand_course acc c = inr (acc ++ entries_of c).
Proof.
  intros [[code Hcode] Hsec]. unfold expand_course, entries_of.
  rewrite (getitem_Some _ _ _ Hcode), Hcode. cbn [mbind result_bind].
  destruct Hsec as [Hnone|[k Hk]].
  - rewrite (sections_of_None _ Hnone). unfold dict_get. rewrite Hnone.
    exact (f_equal inr (fold_left_snoc (section_entry c code) _ acc)).
  - rewrite (sections_of_Some _ _ Hk). unfold dict_get. rewrite Hk.
    exact (f_equal inr (fold_left_snoc (section_entry c code) _ acc)).
Qed.

Lemma expand_course_no_code (acc : list dict) (c : dict) :
  c !! "code" = None -> expand_course acc c = inl KeyError.
Proof. intros H. unfold expand_course. by rewrite (getitem_None _ _ H). Qed.

Lemma expand_course_bad_sections (acc : list dict) (c : dict) (v : pyval) :
  is_Some (c !! "code") -> c !! "sections" = Some v -> (forall k, v <> PyInt k) ->
  expand_course acc c = inl TypeError.
Proof.
  intros [code Hcode] Hv Hni. unfold expand_course, dict_get.
  rewrite (getitem_Some _ _ _ Hcode), Hv. cbn [mbind result_bind default].
  destruct v as [k| |]; [by destruct (Hni k)|reflexivity..].
Qed.

Lemma for_each_expand_ok (cs : list dict) (acc : list dict) :
  Forall expandable cs ->
  for_each expand_course cs acc = inr (acc ++ (cs ≫= entries_of)).
Proof.
  intros H. revert acc. induction H as [|c cs Hc _ IH]; intros acc; cbn [for_each].
  - cbn. by rewrite app_nil_r.
  - rewrite (expand_course_ok _ _ Hc). cbn [mbind result_bind]. rewrite IH.
    rewrite bind_cons. by rewrite app_assoc.
Qed.

Lemma expand_courses_ok (cs : list dict) :
  Forall expandable cs -> expand_courses cs = inr (cs ≫= entries_of).
Proof. intros H. unfold expand_courses. by rewrite for_each_expand_ok. Qed.

Lemma requirement_ok_expandable (c : dict) : requirement_ok c -> expandable c.
Proof.
  intros [[s Hs] Hsec]. split; [by exists (PyStr s)|].
  destruct Hsec as [?|[k [? _]]]; [by left|right; by exists k].
Qed.

Lemma length_range_Z (a b : Z) : length (range_Z a b) = Z.to_nat (b - a).
Proof. unfold range_Z. by rewrite length_fmap, length_seq. Qed.

Lemma length_entries_of (c : dict) :
  is_Some (c !! "code") -> length (entries_of c) = Z.to_nat (sections_of c).
Proof.
  intros [code Hcode]. unfold entries_of. rewrite Hcode, length_fmap, length_range_Z.
  f_equal. lia.
Qed.

Lemma requirement_ok_sections_pos (c : dict) : requirement_ok c -> 0 < sections_of c.
Proof.
  intros [_ [Hn|[k [Hk Hpos]]]].
  - by rewrite (sections_of_None _ Hn).
  - by rewrite (sections_of_Some _ _ Hk).
Qed.

Lemma section_entry_is_section (c : dict) (s : string) (i : Z) :
  c !! "code" = Some (PyStr s) -> is_section (section_entry c (PyStr s) i) (c, i).
Proof.
  intros Hs. exists s. unfold section_entry. cbn [fst snd py_str].
  repeat split; try done; by simplify_map_eq.
Qed.

Lemma entries_of_units (c : dict) :
  requirement_ok c ->
  Forall2 is_section (entries_of c)
    ((fun i : nat => (c, Z.of_nat i)) <$> seq 1 (Z.to_nat (sections_of c))).
Proof.
  intros [[s Hs] _]. unfold entries_of, range_Z. rewrite Hs.
  replace (sections_of c + 1 - 1) with (sections_of c) by lia.
  rewrite <- fmap_S_seq, <- !list_fmap_compose.
  apply Forall2_fmap, Forall_Forall2_diag, Forall_forall. intros i _. cbn.
  replace (1 + Z.of_nat i) with (Z.of_nat (S i)) by lia.
  by apply section_entry_is_section.
Qed.

(** C5: on a list of course requirements, [expand_courses] returns; the
    number of entries is the sum of the [sections] values (1 where the
    field is missing); the entries come grouped by requirement with indices
    1, 2, ... ascending, each labelled [{code}-S{index}] and carrying the
    parent's code as [course_code]. *)
Theorem expand_courses_count_order_labels (cs : list dict) :
  Forall requirement_ok cs ->
  exists out,
    expand_courses cs = inr out /\
    Z.of_nat (length out) = sum_sections cs /\
    Forall2 is_section out (spec_units cs).
Proof.
  intros H. exists (cs ≫= entries_of). split; [|split].
  - apply expand_courses_ok. eapply Forall_impl; [exact H|].
    apply requirement_ok_expandable.
  - induction H as [|c cs Hc _ IH]; [reflexivity|].
    rewrite bind_cons, length_app. cbn [sum_sections foldr].
    fold (sum_sections cs). rewrite <- IH.
    rewrite length_entries_of by (apply requirement_ok_expandable, Hc).
    pose proof (requirement_ok_sections_pos _ Hc). lia.
  - unfold spec_units. induction H as [|c cs Hc _ IH]; [constructor|].
    rewrite !bind_cons. apply Forall2_app; [|exact IH].
    by apply entries_of_units.
Qed.

Lemma expand_courses_count_order_labels_witness :
  exists out,
    expand_courses [two_sections; pg_course] = inr out /\
    Z.of_nat (length out) = sum_sections [two_sections; pg_course] /\
    Forall2 is_section out (spec_units [two_sections; pg_course]).
Proof.
  apply (expand_courses_count_order_labels [two_sections; pg_course]).
  apply Forall_cons_2; [|apply Forall_cons_2; [|apply Forall_nil_2]].
  - split; [exists "C1"; reflexivity|].
    right. exists 2. split; [reflexivity|lia].
  - split; [exists "C2"; reflexivity|]. left. reflexivity.
Defined.

(** ** Section expander: what is rejected and what is not *)

(** Closes [Forall expandable cs] for a list of concrete requirements. *)
Ltac solve_expandable :=
  repeat first
    [ apply Forall_nil_2
    | apply Forall_cons_2; [split; [by eexists|first [by left|right; by eexists]]|] ].

Lemma entries_of_nonpositive (c : dict) : sections_of c <= 0 -> entries_of c = [].
Proof.
  intros H. unfold entries_of. destruct (c !! "code"); [|reflexivity].
  unfold range_Z. by replace (Z.to_nat (sections_of c + 1 - 1)) with 0%nat by lia.
Qed.

Lemma for_each_expand_stops (pre post : list dict) (c : dict) (e : exn) :
  Forall expandable pre ->
  (forall acc, expand_course acc c = inl e) ->
  expand_courses (pre ++ c :: post) = inl e.
Proof.
  intros Hpre Hc. unfold expand_courses.
  rewrite for_each_app, (for_each_expand_ok _ _ Hpre). cbn [mbind result_bind for_each].
  by rewrite Hc.
Qed.

Lemma compute_cost_no_type (f : Faculty) (e : dict) (w : Weights) (l : Limits) :
  is_Some (e !! "course_code") -> e !! "type" = None ->
  compute_cost f e w l = inl KeyError.
Proof.
  intros [v Hv] Ht. unfold compute_cost.
  rewrite (getitem_Some _ _ _ Hv), (getitem_None _ _ Ht). reflexivity.
Qed.

Lemma entries_of_lookup (c e : dict) :
  e ∈ entries_of c ->
  is_Some (e !! "course_code") /\ e !! "type" = c !! "type".
Proof.
  unfold entries_of. destruct (c !! "code") as [code|] eqn:Hcode.
  - intros [i [-> _]]%list_elem_of_fmap. unfold section_entry.
    split; [exists code|]; by simplify_map_eq.
  - by intros ?%elem_of_nil.
Qed.

(** C7, as the code has it: [expand_courses] raises [KeyError] at the first
    requirement without [code] and [TypeError] at the first whose [sections]
    is present and not an integer; a requirement with a code and an integer
    (also zero or negative) or missing [sections] is accepted whether or
    not it has a [type], and a missing [type] surfaces as the [KeyError] of
    [compute_cost] on each of its expanded sections. *)
Theorem expand_courses_failures (pre post : list dict) (c : dict) :
  Forall expandable pre ->
  (c !! "code" = None -> expand_courses (pre ++ c :: post) = inl KeyError) /\
  (is_Some (c !! "code") ->
   (exists v, c !! "sections" = Some v /\ forall k, v <> PyInt k) ->
   expand_courses (pre ++ c :: post) = inl TypeError) /\
  (expandable c -> Forall expandable post ->
   exists out, expand_courses (pre ++ c :: post) = inr out) /\
  (expandable c -> c !! "type" = None ->
   exists out, expand_courses [c] = inr out /\
     forall e f w l, e ∈ out -> compute_cost f e w l = inl KeyError).
Proof.
  intros Hpre. repeat split.
  - intros Hcode. apply for_each_expand_stops; [done|].
    intros acc. by apply expand_course_no_code.
  - intros Hcode (v & Hv & Hni). apply for_each_expand_stops; [done|].
    intros acc. by apply (expand_course_bad_sections _ _ v).
  - intros Hc Hpost. eexists. apply expand_courses_ok.
    apply Forall_app. split; [done|]. by constructor.
  - intros Hc Htype. eexists. split.
    + apply expand_courses_ok. by constructor.
    + intros e f w l He. cbn in He. rewrite app_nil_r in He.
      apply entries_of_lookup in He as [Hcc Ht]. rewrite Htype in Ht.
      by apply compute_cost_no_type.
Qed.

(** C7 fails as stated: a requirement with [sections = 0] is not rejected,
    [expand_courses] returns the empty list for it. *)
Lemma expand_courses_accepts_zero_sections :
  (exists v, zero_sections !! "sections" = Some v /\
     ~ exists k, v = PyInt k /\ 0 < k) /\
  expand_courses [zero_sections] = inr [] /\
  expand_courses [zero_sections] <> inl InvalidInputError.
Proof.
  split; [|split].
  - exists (PyInt 0). split; [reflexivity|]. intros (k & [= <-] & Hk). lia.
  - reflexivity.
  - discriminate.
Qed.

Lemma expand_courses_failures_witness :
  expand_courses ([two_sections] ++ no_code :: []) = inl KeyError /\
  expand_courses ([two_sections] ++ text_sections :: []) = inl TypeError /\
  (exists out, expand_courses ([two_sections] ++ zero_sections :: []) = inr out) /\
  (exists out, expand_courses [no_type] = inr out /\
     forall e f w l, e ∈ out -> compute_cost f e w l = inl KeyError).
Proof.
  assert (Hpre : Forall expandable [two_sections]) by solve_expandable.
  split; [|split; [|split]].
  - apply (proj1 (expand_courses_failures [two_sections] [] no_code Hpre)).
    reflexivity.
  - apply (proj1 (proj2 (expand_courses_failures [two_sections] [] text_sections Hpre))).
    + exists (PyStr "C1"). reflexivity.
    + exists (PyStr "2"). split; [reflexivity|]. intros k. discriminate.
  - apply (proj1 (proj2 (proj2
             (expand_courses_failures [two_sections] [] zero_sections Hpre)))).
    + split; [exists (PyStr "C1"); reflexivity|].
      right. exists 0. reflexivity.
    + apply Forall_nil_2.
  - apply (proj2 (proj2 (proj2
             (expand_courses_failures [two_sections] [] no_type Hpre)))).
    + split; [exists (PyStr "C1"); reflexivity|]. left. reflexivity.
    + reflexivity.
Defined.

(** C10, as the code has it: when every requirement has a [code] and a
    [sections] that is missing or an integer, [expand_courses] returns, and
    a requirement whose [sections] is zero or negative adds nothing to the
    output. *)
Theorem expand_courses_returns (cs : list dict) :
  Forall expandable cs ->
  (exists out, expand_courses cs = inr out) /\
  (forall pre c post, cs = pre ++ c :: post -> sections_of c <= 0 ->
     expand_courses cs = expand_courses (pre ++ post)).
Proof.
  intros H. split.
  - eexists. by apply expand_courses_ok.
  - intros pre c post -> Hk. rewrite (expand_courses_ok _ H).
    apply Forall_app in H as [Hpre [Hc Hpost]%Forall_cons].
    rewrite expand_courses_ok by (apply Forall_app; done).
    rewrite !bind_app, bind_cons, (entries_of_nonpositive _ Hk). reflexivity.
Qed.

Lemma expand_courses_returns_witness :
  (exists out, expand_courses [two_sections; zero_sections] = inr out) /\
  expand_courses [two_sections; zero_sections] = expand_courses [two_sections].
Proof.
  assert (H : Forall expandable [two_sections; zero_sections])
    by solve_expandable.
  split.
  - apply (proj1 (expand_courses_returns _ H)).
  - apply (proj2 (expand_courses_returns _ H) [two_sections] zero_sections []);
      [reflexivity|]. vm_compute. discriminate.
Defined.

(** C10 fails as stated: a requirement with a [code] and the string ["2"]
    for [sections] makes [expand_courses] raise [TypeError]. *)
Lemma expand_courses_raises_on_text_sections :
  Forall (fun c : dict => is_Some (c !! "code")) [text_sections] /\
  expand_courses [text_sections] = inl TypeError /\
  ~ (exists out, expand_courses [text_sections] = inr out).
Proof.
  split; [|split].
  - repeat constructor. by eexists.
  - reflexivity.
  - intros [out H]. discriminate H.
Qed.

(** ** Cost model: sign of the cost *)

Lemma spec_preference_cost_nonneg (rank : option Z) :
  (0 <= spec_preference_cost rank)%Q.
Proof.
  rewrite <- spec_preference_cost_eq. destruct rank as [p|]; [|done].
  repeat case_match; done.
Qed.

Lemma history_count_nonneg (f : Faculty) (code : string) :
  map_Forall (fun _ count => 0 <= count) (history f) ->
  (0 <= inject_Z (default 0%Z (history f !! code)))%Q.
Proof.
  intros H. change 0%Q with (inject_Z 0). rewrite <- Zle_Qle.
  destruct (history f !! code) as [n|] eqn:Hn; [|done].
  exact (H _ _ Hn).
Qed.

(** C6, as the code has it: with the default weights and limits the cost
    of a §3 faculty record and section is non-negative provided
    [courses_left] does not exceed [max_courses] and, for a UG section,
    [ug_left] does not exceed [max_ug]. *)
Theorem compute_cost_nonneg_within_limits (f : Faculty) (course : dict)
    (code type : string) :
  section_of course code type ->
  faculty_ok f ->
  (courses_left f <= max_courses default_limits)%Q ->
  (type = "UG" -> (ug_left f <= max_ug default_limits)%Q) ->
  exists q, compute_cost f course default_weights default_limits = inr q /\ (0 <= q)%Q.
Proof.
  intros Hsec (Hcl & Hul & Hsu & Hsp & Hts & Hpref & Hhist) Hmax Hug.
  exists (spec_cost f code type default_weights default_limits).
  split; [by apply compute_cost_spec|].
  pose proof (spec_preference_cost_nonneg (preferences f !! code)) as H1.
  pose proof (history_count_nonneg f code Hhist) as H4.
  unfold spec_cost, spec_workload_cost, spec_semester_cost, spec_history_cost,
    spec_timestamp_cost.
  cbn [default_weights default_limits w_overall w_ug w_history w_timestamp
       max_courses max_ug ug_semester pg_semester] in *.
  generalize dependent (spec_preference_cost (preferences f !! code)).
  generalize dependent (inject_Z (default 0%Z (history f !! code))).
  intros h Hh p Hp. destruct Hts as [Hts0 Hts1].
  destruct (decide (type = "UG")) as [->|HUG].
  - specialize (Hug eq_refl). change (bool_decide ("UG" = "UG")) with true.
    cbn [andb orb].
    match goal with |- context [if ?b then _ else _] => destruct b end; lra.
  - rewrite (bool_decide_eq_false_2 _ HUG). cbn [andb orb].
    destruct (bool_decide (type = "PG")); cbn [andb];
      [destruct (Qge_bool _ _)|]; lra.
Qed.

Lemma over_quota_faculty_ok : faculty_ok over_quota_faculty.
Proof.
  unfold faculty_ok. cbn. repeat split; try done.
  - by apply map_Forall_singleton.
Qed.

Lemma busy_faculty_ok : faculty_ok busy_faculty.
Proof.
  unfold faculty_ok. cbn. repeat split; try done.
  - by apply map_Forall_singleton.
  - by apply map_Forall_singleton.
Qed.

(** C6 fails as stated: a faculty record within §3 that has six courses
    left gets cost -1 for a first-preference UG section. *)
Lemma compute_cost_negative :
  faculty_ok over_quota_faculty /\
  section_of ug_section "C1" "UG" /\
  compute_cost over_quota_faculty ug_section default_weights default_limits
    = inr (-1 # 1)%Q /\
  ~ (0 <= -1 # 1)%Q.
Proof.
  split; [exact over_quota_faculty_ok|]. split; [done|]. split; [reflexivity|].
  intros H. by vm_compute in H.
Qed.

Lemma compute_cost_nonneg_within_limits_witness :
  exists q, compute_cost busy_faculty ug_section default_weights default_limits = inr q
    /\ (0 <= q)%Q.
Proof.
  apply (compute_cost_nonneg_within_limits busy_faculty ug_section "C1" "UG").
  - done.
  - exact busy_faculty_ok.
  - by vm_compute.
  - intros _. by vm_compute.
Defined.

(** ** Allocator and entry point: validation and configuration *)

(** C8, as the code has it: [allocate_courses] checks nothing itself; it
    raises exactly when [linear_sum_assignment] raises, with that same
    exception, and otherwise returns the allocation zipped from the
    primitive's answer. *)
Theorem allocate_courses_no_check
    (lsa : ndarray -> result (list nat * list nat)) (m : ndarray) :
  (forall e, allocate_courses lsa m = inl e <-> lsa m = inl e) /\
  (forall row_ind col_ind, lsa m = inr (row_ind, col_ind) ->
     exists unassigned,
       allocate_courses lsa m = inr (zip row_ind col_ind, unassigned)).
Proof.
  unfold allocate_courses. split.
  - intros e. destruct (lsa m) as [e'|[row_ind col_ind]]; cbn.
    + split; intros [= ->]; reflexivity.
    + split; discriminate.
  - intros row_ind col_ind ->. cbn. by eexists.
Qed.

(** C8 fails as stated: on a matrix with a NaN the error is SciPy's
    [ValueError], and a matrix with [+inf] entries that admits an
    assignment avoiding them gets an allocation. *)
Lemma allocate_courses_nonfinite :
  has_nonfinite nan_matrix /\
  allocate_courses lsa_model nan_matrix = inl ValueError /\
  allocate_courses lsa_model nan_matrix <> inl InvalidMatrixError /\
  has_nonfinite inf_matrix /\
  allocate_courses lsa_model inf_matrix = inr ([(0, 1); (1, 0)]%nat, []).
Proof.
  repeat split.
  - by exists 0%nat, 0%nat, NaN.
  - discriminate.
  - by exists 0%nat, 0%nat, PosInf.
Qed.

(** C9, as the code has it: [run_allotment] takes the faculties and the
    courses only, and computes every cost with the weights
    [{overall: 1, ug: 1, history: 5, timestamp: 10}] and the limits
    [{max_courses: 5, max_ug: 2, ug_semester: 1, pg_semester: 2}]: it is the
    entry point of §6 called without a configuration. *)
Theorem run_allotment_fixed_configuration
    (lsa : ndarray -> result (list nat * list nat))
    (faculties : list Faculty) (courses : list dict) :
  run_allotment lsa faculties courses
    = spec_run_allotment lsa faculties courses None None /\
  run_allotment lsa faculties courses
    = spec_run_allotment lsa faculties courses
        (Some {| w_overall := 1; w_ug := 1; w_history := 5; w_timestamp := 10 |})
        (Some {| max_courses := 5; max_ug := 2; ug_semester := 1; pg_semester := 2 |}).
Proof. split; reflexivity. Qed.

(** C9 fails as stated: with a history weight of 0 the entry point of §6
    gives the section to faculty A, while [run_allotment], which has no
    such parameter, gives it to B. *)
Lemma run_allotment_ignores_weights :
  assigned_to "A" (run_allotment lsa_model [veteran; newcomer] [one_ug_course])
    = inr None /\
  assigned_to "A" (spec_run_allotment lsa_model [veteran; newcomer] [one_ug_course]
                     (Some no_history_weights) None)
    = inr (Some (PyStr "C1-S1")) /\
  run_allotment lsa_model [veteran; newcomer] [one_ug_course]
    <> spec_run_allotment lsa_model [veteran; newcomer] [one_ug_course]
         (Some no_history_weights) None.
Proof.
  assert (H1 : assigned_to "A"
            (run_allotment lsa_model [veteran; newcomer] [one_ug_course]) = inr None)
    by (vm_compute; reflexivity).
  assert (H2 : assigned_to "A"
            (spec_run_allotment lsa_model [veteran; newcomer] [one_ug_course]
               (Some no_history_weights) None) = inr (Some (PyStr "C1-S1")))
    by (vm_compute; reflexivity).
  split; [exact H1|]. split; [exact H2|].
  intros Heq. rewrite Heq in H1. rewrite H1 in H2. discriminate H2.
Qed.

(** ** The reference primitive meets its contract *)

Section Injections.
Local Open Scope nat_scope.

Lemma injections_sound (n : nat) (avail l : list nat) :
  l ∈ injections n avail ->
  length l = n /\ NoDup l /\ forall x, x ∈ l -> x ∈ avail.
Proof.
  revert avail l. induction n as [|n IH]; intros avail l; cbn [injections].
  - intros ->%list_elem_of_singleton. repeat split; [constructor|].
    by intros x ?%elem_of_nil.
  - intros (c & Hl & Hc)%list_elem_of_bind.
    apply list_elem_of_fmap in Hl as (l' & -> & Hl').
    apply IH in Hl' as (Hlen & Hnd & Hin). repeat split.
    + cbn. by rewrite Hlen.
    + constructor; [|done]. intros Hcl. apply Hin in Hcl.
      by apply list_elem_of_filter in Hcl as [? _].
    + intros x [->|Hx]%elem_of_cons; [done|].
      apply Hin in Hx. by apply list_elem_of_filter in Hx as [_ ?].
Qed.

Lemma injections_complete (n : nat) (avail l : list nat) :
  length l = n -> NoDup l -> (forall x, x ∈ l -> x ∈ avail) ->
  l ∈ injections n avail.
Proof.
  revert n avail. induction l as [|c l IH]; intros n avail <- Hnd Hin; cbn.
  - by apply list_elem_of_singleton.
  - apply NoDup_cons in Hnd as [Hc Hnd].
    apply list_elem_of_bind. exists c. split; [|apply Hin; left].
    apply list_elem_of_fmap. exists l. split; [done|].
    apply IH; [done..|]. intros x Hx. apply list_elem_of_filter. split.
    + intros ->. done.
    + apply Hin. by right.
Qed.

End Injections.

Section Costs.

Lemma total_cost_Permutation (m : ndarray) (ps qs : list (nat * nat)) :
  ps ≡ₚ qs -> (total_cost m ps == total_cost m qs)%Q.
Proof.
  induction 1 as [|p ps qs _ IH|p q ps|ps qs rs _ IH1 _ IH2];
    cbn [total_cost foldr]; fold (total_cost m) in *.
  - reflexivity.
  - by rewrite IH.
  - ring.
  - by rewrite IH1.
Qed.

Lemma is_matching_Permutation (m : ndarray) (ps qs : list (nat * nat)) :
  ps ≡ₚ qs -> is_matching m ps -> is_matching m qs.
Proof.
  intros Hp (H1 & H2 & H3). repeat split.
  - by rewrite <- Hp.
  - by rewrite <- Hp.
  - by rewrite <- Hp.
Qed.

Lemma cell_at_finite (m : ndarray) (i j : nat) :
  well_shaped m -> all_finite m ->
  (i < shape0 m)%nat -> (j < shape1 m)%nat ->
  exists q, cell_at m i j = Fin q.
Proof.
  intros [Hrows Hcols] Hfin Hi Hj. unfold cell_at.
  destruct (lookup_lt_is_Some_2 (data m) i) as [row Hrow]; [lia|].
  rewrite Hrow. cbn.
  pose proof (proj1 (Forall_lookup _ _) Hcols _ _ Hrow) as Hlen. cbn in Hlen.
  destruct (lookup_lt_is_Some_2 row j) as [c Hc]; [lia|].
  rewrite Hc. cbn.
  pose proof (proj1 (Forall_lookup _ _) Hfin _ _ Hrow) as Hrowfin. cbn in Hrowfin.
  pose proof (proj1 (Forall_lookup _ _) Hrowfin _ _ Hc) as Hcfin. cbn in Hcfin.
  destruct c; try discriminate. by eexists.
Qed.

Lemma assignment_ecost_finite (m : ndarray) (ps : list (nat * nat)) :
  well_shaped m -> all_finite m ->
  Forall (fun p => (p.1 < shape0 m)%nat /\ (p.2 < shape1 m)%nat) ps ->
  assignment_ecost m ps = Some (total_cost m ps).
Proof.
  intros Hw Hf. induction 1 as [|p ps [Hi Hj] _ IH]; [reflexivity|].
  cbn [assignment_ecost total_cost foldr].
  fold (assignment_ecost m ps). fold (total_cost m ps). rewrite IH.
  unfold cost_at. destruct (cell_at_finite m p.1 p.2 Hw Hf Hi Hj) as [q ->].
  reflexivity.
Qed.

Lemma no_invalid_entry (m : ndarray) :
  all_finite m -> existsb (existsb invalid_entry) (data m) = false.
Proof.
  unfold all_finite. induction 1 as [|row rows Hrow _ IH]; [reflexivity|].
  cbn [existsb]. rewrite IH, orb_false_r.
  induction Hrow as [|c row Hc _ IHrow]; [reflexivity|].
  cbn [existsb]. rewrite IHrow, orb_false_r. by destruct c.
Qed.

Lemma ele_total (a b : option Q) : ele a b = false -> ele b a = true.
Proof.
  destruct a as [x|], b as [y|]; cbn; try done.
  intros H. apply Qle_bool_iff. apply Qlt_le_weak, Qnot_le_lt.
  intros Hle. apply Qle_bool_iff in Hle. congruence.
Qed.

Lemma ele_refl (a : option Q) : ele a a = true.
Proof. destruct a as [x|]; cbn; [|done]. apply Qle_bool_iff, Qle_refl. Qed.

Lemma ele_trans (a b c : option Q) :
  ele a b = true -> ele b c = true -> ele a c = true.
Proof.
  destruct a as [x|], b as [y|], c as [z|]; cbn; try done.
  rewrite !Qle_bool_iff. apply Qle_trans.
Qed.

Lemma argmin_least {A : Type} (f : A -> option Q) (xs : list A) (b : A) :
  forall x, x ∈ b :: xs -> ele (f (argmin f b xs)) (f x) = true.
Proof.
  unfold argmin. revert b. induction xs as [|y xs IH]; intros b x Hx; cbn [foldl].
  - apply list_elem_of_singleton in Hx as ->. apply ele_refl.
  - set (b' := if ele (f b) (f y) then b else y).
    assert (Hb : ele (f b') (f b) = true /\ ele (f b') (f y) = true).
    { unfold b'. destruct (ele (f b) (f y)) eqn:Hby.
      - split; [apply ele_refl|done].
      - split; [by apply ele_total|apply ele_refl]. }
    destruct Hb as [Hb Hy].
    apply elem_of_cons in Hx as [->|[->|Hx]%elem_of_cons].
    + eapply ele_trans; [|exact Hb]. apply IH. by left.
    + eapply ele_trans; [|exact Hy]. apply IH. by left.
    + apply IH. by right.
Qed.

Lemma argmin_elem {A : Type} (f : A -> option Q) (xs : list A) (b : A) :
  argmin f b xs ∈ b :: xs.
Proof.
  unfold argmin. revert b. induction xs as [|y xs IH]; intros b; cbn [foldl].
  - by left.
  - specialize (IH (if ele (f b) (f y) then b else y)).
    apply elem_of_cons in IH as [->|IH].
    + destruct (ele _ _); [by left|right; by left].
    + right. by right.
Qed.

End Costs.

Section Candidates.
Local Open Scope nat_scope.

(** A duplicate-free list of [n] indices below [n] is a rearrangement of
    [0..n-1]. *)
Lemma NoDup_full_Permutation (l : list nat) (n : nat) :
  NoDup l -> length l = n -> (forall x, x ∈ l -> x < n) -> l ≡ₚ seq 0 n.
Proof.
  intros Hnd Hlen Hlt. apply submseteq_length_Permutation.
  - apply NoDup_submseteq; [done|]. intros x Hx. apply elem_of_seq.
    specialize (Hlt x Hx). lia.
  - rewrite length_seq. lia.
Qed.

(** A matching that uses every row can be listed in row order. *)
Lemma matching_by_rows (ps : list (nat * nat)) (n : nat) :
  NoDup (ps.*1) -> length ps = n -> (forall p, p ∈ ps -> p.1 < n) ->
  exists cols, ps ≡ₚ zip (seq 0 n) cols /\ length cols = n.
Proof.
  intros Hnd Hlen Hlt.
  assert (Hperm : seq 0 n ≡ₚ ps.*1).
  { symmetry. apply NoDup_full_Permutation; [done|by rewrite length_fmap|].
    intros x (p & -> & Hp)%list_elem_of_fmap. by apply Hlt. }
  apply Permutation_map_inv in Hperm as (qs & Hqs & Hpq).
  exists (qs.*2). split.
  - rewrite Hqs. change (map fst qs) with (qs.*1). by rewrite zip_fst_snd.
  - rewrite length_fmap, <- Hlen. symmetry. by apply Permutation_length.
Qed.

(** A matching that uses every column can be listed in column order. *)
Lemma matching_by_cols (ps : list (nat * nat)) (n : nat) :
  NoDup (ps.*2) -> length ps = n -> (forall p, p ∈ ps -> p.2 < n) ->
  exists rows, ps ≡ₚ zip rows (seq 0 n) /\ length rows = n.
Proof.
  intros Hnd Hlen Hlt.
  assert (Hperm : seq 0 n ≡ₚ ps.*2).
  { symmetry. apply NoDup_full_Permutation; [done|by rewrite length_fmap|].
    intros x (p & -> & Hp)%list_elem_of_fmap. by apply Hlt. }
  apply Permutation_map_inv in Hperm as (qs & Hqs & Hpq).
  exists (qs.*1). split.
  - rewrite Hqs. change (map snd qs) with (qs.*2). by rewrite zip_fst_snd.
  - rewrite length_fmap, <- Hlen. symmetry. by apply Permutation_length.
Qed.

Lemma candidates_sound (m : ndarray) (c : list (nat * nat)) :
  c ∈ candidates m ->
  is_matching m c /\ length c = shape0 m `min` shape1 m.
Proof.
  unfold candidates, is_matching. destruct (Nat.leb_spec (shape0 m) (shape1 m)) as [Hle|Hlt].
  - intros (cols & -> & Hcols)%list_elem_of_fmap.
    apply injections_sound in Hcols as (Hlen & Hnd & Hin).
    rewrite fst_zip, snd_zip, length_zip, length_seq by (rewrite length_seq; lia).
    repeat split; [apply NoDup_seq|done| |lia].
    apply Forall_forall. intros [i j] Hij.
    pose proof (elem_of_zip_l _ _ _ _ Hij) as Hi%elem_of_seq.
    pose proof (elem_of_zip_r _ _ _ _ Hij) as Hj%Hin%elem_of_seq.
    cbn. lia.
  - intros (rows & -> & Hrows)%list_elem_of_fmap.
    apply injections_sound in Hrows as (Hlen & Hnd & Hin).
    rewrite fst_zip, snd_zip, length_zip, length_seq by (rewrite length_seq; lia).
    repeat split; [done|apply NoDup_seq| |lia].
    apply Forall_forall. intros [i j] Hij.
    pose proof (elem_of_zip_l _ _ _ _ Hij) as Hi%Hin%elem_of_seq.
    pose proof (elem_of_zip_r _ _ _ _ Hij) as Hj%elem_of_seq.
    cbn. lia.
Qed.

Lemma candidates_complete (m : ndarray) (ps : list (nat * nat)) :
  is_matching m ps -> length ps = shape0 m `min` shape1 m ->
  exists c, c ∈ candidates m /\ ps ≡ₚ c.
Proof.
  intros (Hr & Hc & Hin) Hlen. rewrite Forall_forall in Hin.
  unfold candidates. destruct (Nat.leb_spec (shape0 m) (shape1 m)) as [Hle|Hlt].
  - rewrite Nat.min_l in Hlen by done.
    destruct (matching_by_rows ps (shape0 m)) as (cols & Hp & Hcols);
      [done|done|intros p Hp; by apply Hin|].
    exists (zip (seq 0 (shape0 m)) cols). split; [|done].
    apply list_elem_of_fmap_2, injections_complete; [done| |].
    + rewrite Hp, snd_zip in Hc by (rewrite length_seq; lia). done.
    + intros j Hj. apply elem_of_seq.
      assert (Hj' : j ∈ (zip (seq 0 (shape0 m)) cols).*2)
        by (rewrite snd_zip by (rewrite length_seq; lia); done).
      apply list_elem_of_fmap in Hj' as (p & -> & Hp').
      rewrite <- Hp in Hp'. apply Hin in Hp'. lia.
  - rewrite Nat.min_r in Hlen by lia.
    destruct (matching_by_cols ps (shape1 m)) as (rows & Hp & Hrows);
      [done|done|intros p Hp; by apply Hin|].
    exists (zip rows (seq 0 (shape1 m))). split; [|done].
    apply (list_elem_of_fmap_2 (fun rows => zip rows (seq 0 (shape1 m)))).
    apply injections_complete; [done| |].
    + rewrite Hp, fst_zip in Hr by (rewrite length_seq; lia). done.
    + intros i Hi. apply elem_of_seq.
      assert (Hi' : i ∈ (zip rows (seq 0 (shape1 m))).*1)
        by (rewrite fst_zip by (rewrite length_seq; lia); done).
      apply list_elem_of_fmap in Hi' as (p & -> & Hp').
      rewrite <- Hp in Hp'. apply Hin in Hp'. lia.
Qed.

End Candidates.

Lemma lsa_model_contract : lsa_contract lsa_model.
Proof.
  intros m Hw Hf. unfold lsa_model. rewrite (no_invalid_entry m Hf).
  destruct (candidates m) as [|c cs] eqn:Hcands.
  { (* there is always a candidate: the contract gives a matching to complete *)
    exfalso.
    assert (Hin : zip (seq 0 (shape0 m `min` shape1 m)) (seq 0 (shape0 m `min` shape1 m))
                    ∈ candidates m).
    { unfold candidates. destruct (Nat.leb_spec (shape0 m) (shape1 m)) as [Hle|Hlt].
      - rewrite Nat.min_l by done. apply list_elem_of_fmap_2.
        apply injections_complete; [by rewrite length_seq|apply NoDup_seq|].
        intros x Hx%elem_of_seq. apply elem_of_seq. lia.
      - rewrite Nat.min_r by lia.
        apply (list_elem_of_fmap_2 (fun rows => zip rows (seq 0 (shape1 m)))).
        apply injections_complete; [by rewrite length_seq|apply NoDup_seq|].
        intros x Hx%elem_of_seq. apply elem_of_seq. lia. }
    rewrite Hcands in Hin. by apply elem_of_nil in Hin. }
  set (best := argmin (assignment_ecost m) c cs).
  assert (Hbest : best ∈ candidates m) by (rewrite Hcands; apply argmin_elem).
  destruct (candidates_sound m best Hbest) as [Hmatch Hlen].
  assert (Hcost : forall ps, is_matching m ps ->
            assignment_ecost m ps = Some (total_cost m ps)).
  { intros ps (_ & _ & Hin). by apply assignment_ecost_finite. }
  rewrite (Hcost best Hmatch).
  set (sorted := merge_sort by_row best).
  assert (Hperm : sorted ≡ₚ best) by apply merge_sort_Permutation.
  exists (sorted.*1), (sorted.*2). rewrite zip_fst_snd, !length_fmap.
  rewrite (Permutation_length Hperm).
  split; [reflexivity|]. split; [done|]. split; [done|]. split.
  - by apply (is_matching_Permutation m best).
  - intros ps Hps Hpslen.
    destruct (candidates_complete m ps Hps Hpslen) as (c' & Hc' & Hpc).
    rewrite (total_cost_Permutation m _ _ Hperm), (total_cost_Permutation m _ _ Hpc).
    pose proof (argmin_least (assignment_ecost m) cs c c') as Hle.
    rewrite <- Hcands in Hle. specialize (Hle Hc'). fold best in Hle.
    rewrite (Hcost best Hmatch) in Hle.
    rewrite (Hcost c' (proj1 (candidates_sound m c' Hc'))) in Hle.
    cbn in Hle. by apply Qle_bool_iff.
Qed.

(** ** The allocator under the contract of the primitive *)

Section AllocatorCorrect.

Variable lsa : ndarray -> result (list nat * list nat).
Hypothesis lsa_ok : lsa_contract lsa.

Lemma allocate_courses_spec (m : ndarray) :
  well_shaped m -> all_finite m ->
  exists row_ind col_ind,
    lsa m = inr (row_ind, col_ind) /\
    allocate_courses lsa m
      = inr (zip row_ind col_ind,
             elements (list_to_set (seq 0 (shape1 m)) ∖ list_to_set col_ind : gset nat)) /\
    length row_ind = (shape0 m `min` shape1 m)%nat /\
    length col_ind = (shape0 m `min` shape1 m)%nat /\
    is_matching m (zip row_ind col_ind) /\
    forall pairs, is_matching m pairs ->
      length pairs = (shape0 m `min` shape1 m)%nat ->
      (total_cost m (zip row_ind col_ind) <= total_cost m pairs)%Q.
Proof.
  intros Hw Hf. destruct (lsa_ok m Hw Hf) as (rows & cols & Hlsa & H).
  exists rows, cols. split; [done|]. split; [|done].
  unfold allocate_courses. by rewrite Hlsa.
Qed.

End AllocatorCorrect.

(** C2: on a cost matrix, the allocation of [allocate_courses] has minimum
    total cost among the matchings that use each row and each column at
    most once and cover [min(F, S)] pairs. *)
Theorem allocate_courses_minimum_cost
    (lsa : ndarray -> result (list nat * list nat)) (m : ndarray) :
  lsa_contract lsa -> well_shaped m -> all_finite m ->
  exists allocation unassigned,
    allocate_courses lsa m = inr (allocation, unassigned) /\
    forall pairs, is_matching m pairs ->
      length pairs = (shape0 m `min` shape1 m)%nat ->
      (total_cost m allocation <= total_cost m pairs)%Q.
Proof.
  intros Hlsa Hw Hf.
  destruct (allocate_courses_spec lsa Hlsa m Hw Hf)
    as (rows & cols & _ & Halloc & _ & _ & _ & Hmin).
  by eexists _, _.
Qed.

Lemma allocate_courses_minimum_cost_witness :
  exists allocation unassigned,
    allocate_courses lsa_model wide_matrix = inr (allocation, unassigned) /\
    forall pairs, is_matching wide_matrix pairs ->
      length pairs = (shape0 wide_matrix `min` shape1 wide_matrix)%nat ->
      (total_cost wide_matrix allocation <= total_cost wide_matrix pairs)%Q.
Proof.
  apply (allocate_courses_minimum_cost lsa_model wide_matrix lsa_model_contract).
  - split; [reflexivity|repeat constructor].
  - repeat constructor.
Defined.

(** C3: on an F-by-S cost matrix, the allocation of [allocate_courses] has
    exactly [min(F, S)] pairs, with pairwise distinct rows and pairwise
    distinct columns. *)
Theorem allocate_courses_is_matching
    (lsa : ndarray -> result (list nat * list nat)) (m : ndarray) :
  lsa_contract lsa -> well_shaped m -> all_finite m ->
  exists allocation unassigned,
    allocate_courses lsa m = inr (allocation, unassigned) /\
    length allocation = (shape0 m `min` shape1 m)%nat /\
    NoDup (allocation.*1) /\ NoDup (allocation.*2).
Proof.
  intros Hlsa Hw Hf.
  destruct (allocate_courses_spec lsa Hlsa m Hw Hf)
    as (rows & cols & _ & Halloc & Hr & Hc & (Hnr & Hnc & _) & _).
  eexists _, _. split; [exact Halloc|]. split; [|done].
  rewrite length_zip. lia.
Qed.

Lemma allocate_courses_is_matching_witness :
  exists allocation unassigned,
    allocate_courses lsa_model tall_matrix = inr (allocation, unassigned) /\
    length allocation = (shape0 tall_matrix `min` shape1 tall_matrix)%nat /\
    NoDup (allocation.*1) /\ NoDup (allocation.*2).
Proof.
  apply (allocate_courses_is_matching lsa_model tall_matrix lsa_model_contract).
  - split; [reflexivity|repeat constructor].
  - repeat constructor.
Defined.

(** C4: on a cost matrix with S columns, [unassigned] has no duplicates,
    and it and the columns of the allocation partition [{0..S-1}]: an index
    is in one of them exactly when it is below S, and none is in both. *)
Theorem allocate_courses_unassigned_partition
    (lsa : ndarray -> result (list nat * list nat)) (m : ndarray) :
  lsa_contract lsa -> well_shaped m -> all_finite m ->
  exists allocation unassigned,
    allocate_courses lsa m = inr (allocation, unassigned) /\
    NoDup unassigned /\
    (forall j, j ∈ unassigned \/ j ∈ allocation.*2 <-> (j < shape1 m)%nat) /\
    (forall j, ~ (j ∈ unassigned /\ j ∈ allocation.*2)).
Proof.
  intros Hlsa Hw Hf.
  destruct (allocate_courses_spec lsa Hlsa m Hw Hf)
    as (rows & cols & _ & Halloc & Hr & Hc & (_ & _ & Hin) & _).
  eexists _, _. split; [exact Halloc|].
  rewrite snd_zip by lia.
  split; [apply NoDup_elements|]. split.
  - intros j. rewrite elem_of_elements, elem_of_difference, !elem_of_list_to_set,
      elem_of_seq. split.
    + intros [[? _]|Hj]; [lia|].
      rewrite Forall_forall in Hin.
      assert (Hj' : j ∈ (zip rows cols).*2) by (rewrite snd_zip by lia; done).
      apply list_elem_of_fmap in Hj' as (p & -> & Hp). apply Hin in Hp. lia.
    + intros Hj. destruct (decide (j ∈ cols)); [by right|left]. split; [lia|done].
  - intros j. rewrite elem_of_elements, elem_of_difference, !elem_of_list_to_set.
    tauto.
Qed.

Lemma allocate_courses_unassigned_partition_witness :
  exists allocation unassigned,
    allocate_courses lsa_model wide_matrix = inr (allocation, unassigned) /\
    NoDup unassigned /\
    (forall j, j ∈ unassigned \/ j ∈ allocation.*2 <-> (j < shape1 wide_matrix)%nat) /\
    (forall j, ~ (j ∈ unassigned /\ j ∈ allocation.*2)).
Proof.
  apply (allocate_courses_unassigned_partition lsa_model wide_matrix
           lsa_model_contract).
  - split; [reflexivity|repeat constructor].
  - repeat constructor.
Defined.

(** ** Scenarios of §8, run with the reference primitive *)

(** Two faculty and one section: the faculty who ranks the course first gets
    it, nothing is left unassigned. *)
Example scenario_first_preference_wins :
  listing (run_allotment lsa_model [indifferent; veteran] [one_ug_course])
    = inr ([("A", PyStr "C1-S1")], []).
Proof. vm_compute. reflexivity. Qed.

(** One faculty and two sections of a course: one section is assigned, the
    other is reported unassigned. *)
Example scenario_one_faculty_two_sections :
  listing (run_allotment lsa_model [veteran] [two_sections])
    = inr ([("A", PyStr "C1-S1")], [PyStr "C1-S2"]).
Proof. vm_compute. reflexivity. Qed.

(** A faculty at the UG semester limit pays the penalty of 1000: second
    preference 10, workload 2 + 1, penalty 1000, history 5 * 2, timestamp
    10 * 1/2. *)
Example scenario_semester_limit :
  Qred <$> compute_cost busy_faculty ug_section default_weights default_limits
    = inr (1028 # 1)%Q.
Proof. vm_compute. reflexivity. Qed.

(** No faculty: every section is unassigned. *)
Example allocate_empty_matrix :
  allocate_courses lsa_model empty_matrix = inr ([], [1; 0]%nat).
Proof. vm_compute. reflexivity. Qed.

(** More faculty than sections: the pairs come ordered by row. *)
Example allocate_tall_matrix :
  allocate_courses lsa_model tall_matrix = inr ([(0, 1); (1, 0)]%nat, []).
Proof. vm_compute. reflexivity. Qed.

(** * Beyond the specification: further properties of the code *)

(** ** Section expander: composition, attributes, labels *)

Lemma expand_course_acc (acc : list dict) (c : dict) :
  expand_course acc c = (acc ++.) <$> expand_course [] c.
Proof.
  unfold expand_course. destruct (getitem c "code") as [e|code]; [reflexivity|].
  cbn [mbind result_bind].
  destruct (py_add _ _) as [e|stop]; [reflexivity|]. cbn [mbind result_bind].
  destruct (py_range _ _) as [e|secs]; [reflexivity|].
  cbn [mbind result_bind mret result_ret fmap result_fmap].
  by rewrite !(fold_left_snoc (section_entry c code)).
Qed.

Lemma for_each_expand_acc (cs : list dict) (acc : list dict) :
  for_each expand_course cs acc = (acc ++.) <$> for_each expand_course cs [].
Proof.
  revert acc. induction cs as [|c cs IH]; intros acc; cbn [for_each].
  - cbn. by rewrite app_nil_r.
  - rewrite (expand_course_acc acc c).
    destruct (expand_course [] c) as [e|l]; [reflexivity|].
    cbn [fmap result_fmap mbind result_bind].
    rewrite (IH (acc ++ l)), (IH l).
    destruct (for_each expand_course cs []) as [e|l']; [reflexivity|].
    cbn. by rewrite app_assoc.
Qed.

(** What a single requirement expands to, when it expands. *)
Lemma expand_course_inr (c : dict) (l : list dict) :
  expand_course [] c = inr l -> expandable c /\ l = entries_of c.
Proof.
  intros H. assert (Hc : expandable c).
  { unfold expand_course, getitem, dict_get in H. split.
    - destruct (c !! "code"); [by eexists|discriminate].
    - destruct (c !! "code"); [|discriminate]. cbn [mbind result_bind] in H.
      destruct (c !! "sections") as [[k| |]|]; try discriminate; [right|left]; eauto. }
  split; [done|]. rewrite (expand_course_ok [] c Hc) in H. by injection H as <-.
Qed.

Lemma expand_courses_inr (cs : list dict) (out : list dict) :
  expand_courses cs = inr out ->
  Forall expandable cs /\ out = cs ≫= entries_of.
Proof.
  unfold expand_courses. revert out. induction cs as [|c cs IH]; intros out H.
  - injection H as <-. by split.
  - cbn [for_each] in H. destruct (expand_course [] c) as [e|l] eqn:Hc; [discriminate|].
    cbn [mbind result_bind] in H. rewrite for_each_expand_acc in H.
    destruct (for_each expand_course cs []) as [e|l'] eqn:Hcs; [discriminate|].
    injection H as <-. apply expand_course_inr in Hc as [Hc ->].
    destruct (IH l' eq_refl) as [Hcs' ->]. split; [by constructor|].
    by rewrite bind_cons.
Qed.

(** X1: Expanding a concatenation of two requirement lists is expanding
    each and concatenating the results; if the first list raises, that
    exception is raised, otherwise the second list's exception, if any. *)
Theorem expand_courses_app (xs ys : list dict) :
  expand_courses (xs ++ ys)
    = (a ← expand_courses xs; b ← expand_courses ys; mret (a ++ b)).
Proof.
  unfold expand_courses. rewrite for_each_app.
  destruct (for_each expand_course xs []) as [e|a]; [reflexivity|].
  cbn [mbind result_bind]. rewrite for_each_expand_acc.
  by destruct (for_each expand_course ys []).
Qed.

(** X2: Every entry expand_courses returns comes from one input
    requirement: its course_code is that requirement's code, and on every
    key other than course_code, code and section it has exactly the
    requirement's value (type, sections and any other attribute are copied
    unchanged). *)
Theorem expand_courses_keeps_attributes (cs out : list dict) (e : dict) :
  expand_courses cs = inr out -> e ∈ out ->
  exists c, c ∈ cs /\
    e !! "course_code" = c !! "code" /\
    forall k, k <> "course_code" -> k <> "code" -> k <> "section" ->
      e !! k = c !! k.
Proof.
  intros [_ ->]%expand_courses_inr (c & He & Hc)%list_elem_of_bind.
  exists c. split; [done|]. unfold entries_of in He.
  destruct (c !! "code") as [code|] eqn:Hcode; [|by apply elem_of_nil in He].
  apply list_elem_of_fmap in He as (i & -> & _). unfold section_entry. split.
  - by simplify_map_eq.
  - intros k H1 H2 H3. by rewrite !lookup_insert_ne.
Qed.

Lemma expand_courses_keeps_attributes_witness :
  exists c, c ∈ [two_sections] /\
    section_entry two_sections (PyStr "C1") 2 !! "course_code" = c !! "code" /\
    forall k, k <> "course_code" -> k <> "code" -> k <> "section" ->
      section_entry two_sections (PyStr "C1") 2 !! k = c !! k.
Proof.
  apply (expand_courses_keeps_attributes [two_sections]
           [section_entry two_sections (PyStr "C1") 1;
            section_entry two_sections (PyStr "C1") 2]).
  - reflexivity.
  - right. left.
Defined.

(** *** Labels are unique *)

Lemma append_nil_l (s : string) : EmptyString +:+ s = s.
Proof. reflexivity. Qed.

Lemma append_cons_l (c : Ascii.ascii) (s t : string) :
  String c s +:+ t = String c (s +:+ t).
Proof. reflexivity. Qed.

Lemma lacks_dash_no_infix (d x y : string) :
  lacks "-" d -> d <> x +:+ String "-" y.
Proof.
  revert d. induction x as [|c x IH]; intros [|c' d] Hd;
    rewrite ?append_cons_l, ?append_nil_l; try done.
  - intros [= -> _]. by destruct Hd.
  - intros [= _ H]. destruct Hd as [_ Hd]. by apply (IH d).
Qed.

Lemma label_inj (s1 s2 d1 d2 : string) :
  lacks "-" d1 -> lacks "-" d2 ->
  s1 +:+ "-S" +:+ d1 = s2 +:+ "-S" +:+ d2 -> s1 = s2 /\ d1 = d2.
Proof.
  intros H1 H2. revert s2.
  induction s1 as [|c s1 IH]; intros [|c2 s2] H;
    rewrite ?append_cons_l, ?append_nil_l in H.
  - by injection H as ->.
  - injection H as <- H. destruct s2 as [|c3 s2];
      rewrite ?append_cons_l, ?append_nil_l in H; [discriminate|].
    injection H as <- H. by destruct (lacks_dash_no_infix d1 s2 (String "S" d2)).
  - injection H as -> H. destruct s1 as [|c3 s1];
      rewrite ?append_cons_l, ?append_nil_l in H; [discriminate|].
    injection H as -> H. symmetry in H.
    by destruct (lacks_dash_no_infix d2 s1 (String "S" d1)).
  - injection H as -> H. by destruct (IH s2 H) as [-> ->].
Qed.

Lemma pretty_N_go_lacks_dash (x : N) (s : string) :
  lacks "-" s -> lacks "-" (pretty_N_go x s).
Proof.
  revert s. induction (N.lt_wf_0 x) as [x _ IH]; intros s Hs.
  destruct (decide (x = 0)%N) as [->|Hx]; [by rewrite pretty_N_go_0|].
  rewrite pretty_N_go_step by lia. apply IH.
  - apply N.div_lt; lia.
  - split; [|done]. unfold pretty_N_char. by repeat case_match.
Qed.

Lemma pretty_lacks_dash (i : Z) : 0 < i -> lacks "-" (pretty i).
Proof.
  destruct i as [|p|p]; try lia. intros _.
  unfold pretty, pretty_Z, pretty, pretty_positive, pretty, pretty_N.
  destruct (decide _); [done|]. by apply pretty_N_go_lacks_dash.
Qed.

Lemma elem_of_range_Z (a b i : Z) : i ∈ range_Z a b <-> a <= i < b.
Proof.
  unfold range_Z. rewrite list_elem_of_fmap. split.
  - intros (n & -> & Hn%elem_of_seq). lia.
  - intros Hi. exists (Z.to_nat (i - a)). split; [lia|]. apply elem_of_seq. lia.
Qed.

Lemma NoDup_range_Z (a b : Z) : NoDup (range_Z a b).
Proof.
  unfold range_Z. apply NoDup_fmap_2; [|apply NoDup_seq].
  intros n1 n2 H. lia.
Qed.

(** The labels one requirement with a string code contributes. *)
Lemma labels_entries_of (c : dict) (s : string) :
  c !! "code" = Some (PyStr s) ->
  labels (entries_of c)
    = (fun i => Some (PyStr (s +:+ "-S" +:+ pretty i)))
        <$> range_Z 1 (sections_of c + 1).
Proof.
  intros Hs. unfold labels, entries_of. rewrite Hs, <- list_fmap_compose.
  apply list_fmap_ext. intros _ i _. unfold section_entry. cbn.
  by simplify_map_eq.
Qed.

Lemma labels_bind (cs : list dict) :
  labels (cs ≫= entries_of) = cs ≫= (fun c => labels (entries_of c)).
Proof.
  unfold labels. induction cs as [|c cs IH]; [reflexivity|].
  by rewrite !bind_cons, fmap_app, IH.
Qed.

(** X3: When the requirements' codes are strings and pairwise distinct,
    the section labels (the code field of the expanded entries,
    '{code}-S{index}') returned by expand_courses are pairwise distinct,
    also when a code itself contains '-S'. *)
Theorem expand_courses_labels_unique (cs out : list dict) :
  expand_courses cs = inr out ->
  Forall (fun c => exists s, c !! "code" = Some (PyStr s)) cs ->
  NoDup (labels cs) ->
  NoDup (labels out).
Proof.
  intros [_ ->]%expand_courses_inr Hstr Hnd. rewrite Forall_forall in Hstr.
  rewrite labels_bind. apply NoDup_bind.
  - intros c1 c2 l Hc1 Hc2 Hl1 Hl2.
    destruct (Hstr c1 Hc1) as [s1 Hs1], (Hstr c2 Hc2) as [s2 Hs2].
    rewrite (labels_entries_of c1 s1 Hs1) in Hl1.
    rewrite (labels_entries_of c2 s2 Hs2) in Hl2.
    apply list_elem_of_fmap in Hl1 as (i1 & -> & Hi1%elem_of_range_Z).
    apply list_elem_of_fmap in Hl2 as (i2 & [= Heq] & Hi2%elem_of_range_Z).
    apply label_inj in Heq as [-> _]; [|apply pretty_lacks_dash; lia..].
    apply list_elem_of_lookup in Hc1 as [n1 Hn1].
    apply list_elem_of_lookup in Hc2 as [n2 Hn2].
    assert (n1 = n2) as ->; [|congruence].
    apply (NoDup_lookup (labels cs) n1 n2 (Some (PyStr s2))); [done| |];
      unfold labels; rewrite list_lookup_fmap.
    + by rewrite Hn1; cbn; rewrite Hs1.
    + by rewrite Hn2; cbn; rewrite Hs2.
  - intros c Hc. destruct (Hstr c Hc) as [s Hs]. rewrite (labels_entries_of c s Hs).
    apply NoDup_fmap_2_strong; [|apply NoDup_range_Z].
    intros i1 i2 Hi1%elem_of_range_Z Hi2%elem_of_range_Z [= Heq].
    apply label_inj in Heq as [_ Heq]; [|apply pretty_lacks_dash; lia..].
    by apply (inj pretty).
  - by apply (NoDup_fmap_1 (fun c : dict => c !! "code")).
Qed.

Lemma expand_courses_labels_unique_witness :
  NoDup (labels [section_entry two_sections (PyStr "C1") 1;
                 section_entry two_sections (PyStr "C1") 2;
                 section_entry pg_course (PyStr "C2") 1]).
Proof.
  apply (expand_courses_labels_unique [two_sections; pg_course]).
  - reflexivity.
  - apply Forall_cons_2; [exists "C1"; reflexivity|].
    apply Forall_cons_2; [exists "C2"; reflexivity|]. apply Forall_nil_2.
  - vm_compute. apply NoDup_cons_2; [|apply NoDup_singleton].
    intros H. apply list_elem_of_singleton in H. discriminate H.
Defined.

(** ** Cost model: errors and comparisons *)


Section Comparisons.
Local Open Scope Q_scope.





(** X7: For a section whose type is neither 'UG' nor 'PG' (for instance
    'ug' in lower case) the cost depends on the faculty only through the
    rank, courses_left and the history count: ug_left, both current-
    semester counts and the timestamp are ignored, so no semester penalty
    and no timestamp term applies. *)
Theorem compute_cost_other_type (f1 f2 : Faculty) (course : dict)
    (code type : string) (w : Weights) (l : Limits) :
  section_of course code type ->
  type <> "UG" -> type <> "PG" ->
  preferences f1 !! code = preferences f2 !! code ->
  courses_left f1 = courses_left f2 ->
  history f1 !! code = history f2 !! code ->
  compute_cost f1 course w l = compute_cost f2 course w l.
Proof.
  intros Hsec HUG HPG Hp Hc Hh.
  rewrite !(compute_cost_spec _ course code type) by done.
  unfold spec_cost, spec_workload_cost, spec_semester_cost, spec_history_cost,
    spec_timestamp_cost.
  rewrite !(bool_decide_eq_false_2 _ HUG), !(bool_decide_eq_false_2 _ HPG).
  cbn [andb orb]. by rewrite Hp, Hc, Hh.
Qed.

Lemma compute_cost_other_type_witness :
  compute_cost busy_faculty lower_case_section default_weights default_limits
    = compute_cost (with_timestamp busy_faculty 1) lower_case_section
        default_weights default_limits.
Proof.
  apply (compute_cost_other_type busy_faculty (with_timestamp busy_faculty 1)
           lower_case_section "C1" "ug").
  - split; reflexivity.
  - discriminate.
  - discriminate.
  - reflexivity.
  - reflexivity.
  - reflexivity.
Defined.



End Comparisons.

(** ** Cost matrix *)















(** ** Allocator: how many sections stay unassigned *)

Section Unassigned.
Local Open Scope nat_scope.

Lemma unassigned_length (ncols : nat) (cols : list nat) :
  NoDup cols -> (forall j, j ∈ cols -> j < ncols) ->
  length (elements (list_to_set (seq 0 ncols) ∖ list_to_set cols : gset nat))
    = ncols - length cols.
Proof.
  intros Hnd Hin.
  change (length (elements ?X)) with (size X).
  rewrite size_difference.
  - rewrite !size_list_to_set, length_seq by (done || apply NoDup_seq). done.
  - intros j. rewrite !elem_of_list_to_set, elem_of_seq. intros Hj%Hin. lia.
Qed.

Lemma matching_cols (m : ndarray) (rows cols : list nat) :
  length rows = length cols -> is_matching m (zip rows cols) ->
  NoDup rows /\ NoDup cols /\
  (forall i, i ∈ rows -> i < shape0 m) /\ (forall j, j ∈ cols -> j < shape1 m).
Proof.
  intros Hlen (Hr & Hc & Hin). rewrite fst_zip in Hr by lia.
  rewrite snd_zip in Hc by lia. rewrite Forall_forall in Hin.
  repeat split; [done..| |].
  - intros i Hi. rewrite <- (fst_zip rows cols) in Hi by lia.
    apply list_elem_of_fmap in Hi as (p & -> & Hp). by apply Hin.
  - intros j Hj. rewrite <- (snd_zip rows cols) in Hj by lia.
    apply list_elem_of_fmap in Hj as (p & -> & Hp). by apply Hin.
Qed.

(** X11: On an F-by-S cost matrix, with a primitive that meets its
    contract, allocate_courses leaves exactly S - F sections unassigned
    (none when there are at least as many faculty as sections). *)
Theorem allocate_courses_unassigned_count
    (lsa : ndarray -> result (list nat * list nat)) (m : ndarray) :
  lsa_contract lsa -> well_shaped m -> all_finite m ->
  exists allocation unassigned,
    allocate_courses lsa m = inr (allocation, unassigned) /\
    length unassigned = shape1 m - shape0 m /\
    (shape1 m <= shape0 m -> unassigned = []).
Proof.
  intros Hlsa Hw Hf.
  destruct (allocate_courses_spec lsa Hlsa m Hw Hf)
    as (rows & cols & _ & Halloc & Hr & Hc & Hmatch & _).
  destruct (matching_cols m rows cols) as (_ & Hnd & _ & Hin); [lia|done|].
  eexists _, _. split; [exact Halloc|].
  assert (Hlen : length (elements (list_to_set (seq 0 (shape1 m)) ∖ list_to_set cols
                                     : gset nat)) = shape1 m - shape0 m).
  { rewrite unassigned_length by done. lia. }
  split; [done|]. intros Hle. apply nil_length_inv. lia.
Qed.

Lemma allocate_courses_unassigned_count_witness :
  exists allocation unassigned,
    allocate_courses lsa_model tall_matrix = inr (allocation, unassigned) /\
    length unassigned = shape1 tall_matrix - shape0 tall_matrix /\
    (shape1 tall_matrix <= shape0 tall_matrix -> unassigned = []).
Proof.
  apply (allocate_courses_unassigned_count lsa_model tall_matrix lsa_model_contract).
  - split; [reflexivity|repeat constructor].
  - repeat constructor.
Defined.

End Unassigned.

(** ** The entry point end to end *)

Section EntryPoint.
Local Open Scope nat_scope.

Variable fs : list Faculty.
Variable expanded : list dict.






End EntryPoint.





Section RunAllotment.
Local Open Scope nat_scope.

Variable lsa : ndarray -> result (list nat * list nat).
Hypothesis lsa_ok : lsa_contract lsa.


End RunAllotment.

Section RunAllotmentFacts.
Local Open Scope nat_scope.








End RunAllotmentFacts.







(** ** Data preparation: cleaning the course codes *)

Lemma split_on_nonempty (sep : Ascii.ascii) (s : string) : split_on sep s <> [].
Proof.
  destruct s as [|c s]; cbn; [done|].
  destruct (decide (c = sep)); [done|]. by destruct (split_on sep s).
Qed.

Lemma split_first_nil (sep : Ascii.ascii) : split_first sep EmptyString = EmptyString.
Proof. reflexivity. Qed.

Lemma split_first_cons (sep c : Ascii.ascii) (s : string) :
  split_first sep (String c s)
    = if decide (c = sep) then EmptyString else String c (split_first sep s).
Proof.
  unfold split_first. cbn [split_on]. destruct (decide (c = sep)); [done|].
  pose proof (split_on_nonempty sep s). by destruct (split_on sep s).
Qed.

Lemma split_first_prefix (sep : Ascii.ascii) (a b : string) :
  lacks sep a -> split_first sep (a +:+ String sep b) = a.
Proof.
  induction a as [|c a IH]; intros Ha; rewrite ?append_cons_l, ?append_nil_l.
  - rewrite split_first_cons. by rewrite decide_True.
  - destruct Ha as [Hc Ha]. rewrite split_first_cons, decide_False by done.
    by rewrite IH.
Qed.

Lemma split_first_whole (sep : Ascii.ascii) (a : string) :
  lacks sep a -> split_first sep a = a.
Proof.
  induction a as [|c a IH]; intros Ha; [done|]. destruct Ha as [Hc Ha].
  rewrite split_first_cons, decide_False by done. by rewrite IH.
Qed.

Lemma split_first_lacks (sep : Ascii.ascii) (s : string) :
  lacks sep (split_first sep s).
Proof.
  induction s as [|c s IH]; [done|]. rewrite split_first_cons.
  destruct (decide (c = sep)); [done|]. by split.
Qed.

Lemma split_first_decompose (sep : Ascii.ascii) (s : string) :
  s = split_first sep s \/ exists rest, s = split_first sep s +:+ String sep rest.
Proof.
  induction s as [|c s IH]; [by left|]. rewrite split_first_cons.
  destruct (decide (c = sep)) as [->|Hc].
  - right. by exists s.
  - destruct IH as [IH|[rest IH]].
    + left. by rewrite <- IH.
    + right. exists rest. rewrite append_cons_l. by rewrite <- IH.
Qed.

Lemma lacks_split_first (sep ch : Ascii.ascii) (s : string) :
  lacks ch s -> lacks ch (split_first sep s).
Proof.
  induction s as [|c s IH]; [done|]. intros [Hc Hs]. rewrite split_first_cons.
  destruct (decide (c = sep)); [done|]. split; [done|]. by apply IH.
Qed.

Lemma split_first_app (sep : Ascii.ascii) (a b : string) :
  lacks sep a -> split_first sep (a +:+ b) = a +:+ split_first sep b.
Proof.
  induction a as [|c a IH]; intros Ha; rewrite ?append_cons_l, ?append_nil_l; [done|].
  destruct Ha as [Hc Ha]. rewrite split_first_cons, decide_False by done.
  by rewrite IH.
Qed.

(** X15: The cleaned course code x.split('/')[0] contains no '/', is x
    itself or the part of x before its first '/', and cleaning it again
    changes nothing. *)
Theorem clean_course_code_spec (x : string) :
  lacks "/" (clean_course_code x) /\
  (x = clean_course_code x \/
   exists rest, x = clean_course_code x +:+ String "/" rest) /\
  clean_course_code (clean_course_code x) = clean_course_code x.
Proof.
  unfold clean_course_code. split; [apply split_first_lacks|].
  split; [apply split_first_decompose|].
  apply split_first_whole, split_first_lacks.
Qed.

(** X16: For a code without '/' and without space, the course-requirement
    cleaning maps 'code' and 'code/alt' to code, and the preference
    cleaning maps 'code', 'code title' and 'code/alt title' to the same
    code, so preference keys match the course codes. *)
Theorem cleaned_codes_align (code alt title : string) :
  lacks "/" code -> lacks " " code ->
  clean_course_code code = code /\
  clean_course_code (code +:+ "/" +:+ alt) = code /\
  clean_preference code = code /\
  clean_preference (code +:+ " " +:+ title) = code /\
  clean_preference (code +:+ "/" +:+ alt +:+ " " +:+ title) = code.
Proof.
  intros Hslash Hspace. unfold clean_course_code, clean_preference.
  rewrite ?append_cons_l, ?append_nil_l.
  split; [by apply split_first_whole|].
  split; [apply (split_first_prefix "/" code alt Hslash)|].
  split; [rewrite (split_first_whole " " code Hspace); by apply split_first_whole|].
  split; [rewrite (split_first_prefix " " code title Hspace);
          by apply split_first_whole|].
  rewrite split_first_app by done.
  rewrite split_first_cons, decide_False by done.
  by apply split_first_prefix.
Qed.

Lemma cleaned_codes_align_witness :
  clean_course_code "CS101" = "CS101" /\
  clean_course_code ("CS101" +:+ "/" +:+ "CS102") = "CS101" /\
  clean_preference "CS101" = "CS101" /\
  clean_preference ("CS101" +:+ " " +:+ "Data Structures") = "CS101" /\
  clean_preference ("CS101" +:+ "/" +:+ "CS102" +:+ " " +:+ "Data Structures")
    = "CS101".
Proof.
  apply (cleaned_codes_align "CS101" "CS102" "Data Structures").
  - vm_compute. repeat split; discriminate.
  - vm_compute. repeat split; discriminate.
Defined.

(** ** Data preparation: teaching history *)

Lemma calculate_history_lookup (preferences : gmap string Z) (courses_str course : string) :
  calculate_history preferences courses_str !! course
    = (fun _ => Z.of_nat (list_count course (split_on "," courses_str)))
        <$> preferences !! course.
Proof.
  unfold calculate_history.
  apply (map_fold_weak_ind
           (fun (r : gmap string Z) (m : gmap string Z) =>
              r !! course
                = (fun _ => Z.of_nat (list_count course (split_on "," courses_str)))
                    <$> m !! course)).
  - by rewrite !lookup_empty.
  - intros i x m r Hi IH. destruct (decide (i = course)) as [->|Hne].
    + by rewrite !lookup_insert_eq.
    + by rewrite !lookup_insert_ne.
Qed.

(** X17: calculate_history returns a dictionary with exactly the keys of
    the preferences; the value for a course is the number of times it
    occurs among the comma-separated courses taught, hence never negative.
    *)
Theorem calculate_history_counts (preferences : gmap string Z) (courses_str : string) :
  dom (calculate_history preferences courses_str) = dom preferences /\
  (forall course, course ∈ dom preferences ->
     calculate_history preferences courses_str !! course
       = Some (Z.of_nat (list_count course (split_on "," courses_str)))) /\
  map_Forall (fun _ count => 0 <= count) (calculate_history preferences courses_str).
Proof.
  split; [|split].
  - apply set_eq. intros course. rewrite !elem_of_dom, calculate_history_lookup.
    by rewrite fmap_is_Some.
  - intros course [r Hr]%elem_of_dom. by rewrite calculate_history_lookup, Hr.
  - intros course count. rewrite calculate_history_lookup.
    destruct (preferences !! course); [|done]. intros [= <-]. lia.
Qed.

(** X18: For a faculty record whose history comes from calculate_history,
    a course that is not among the preferences has no history entry
    however often it was taught: its cost is 100 plus the workload,
    semester and timestamp terms, with no history term. *)
Theorem unlisted_course_has_no_history (f : Faculty) (course : dict)
    (code type courses_str : string) (w : Weights) (l : Limits) :
  section_of course code type ->
  history f = calculate_history (preferences f) courses_str ->
  preferences f !! code = None ->
  exists q,
    compute_cost f course w l = inr q /\
    (q == 100 + spec_workload_cost f type w l + spec_semester_cost f type l
          + spec_timestamp_cost f type w)%Q.
Proof.
  intros Hsec Hh Hp. eexists. split; [by apply compute_cost_spec|].
  unfold spec_cost, spec_history_cost.
  rewrite Hh, calculate_history_lookup, Hp. cbn [fmap option_fmap option_map default].
  cbn [spec_preference_cost]. change (inject_Z 0) with 0%Q. ring.
Qed.

Lemma unlisted_course_has_no_history_witness :
  exists q,
    compute_cost taught_unlisted ug_section default_weights default_limits = inr q /\
    (q == 100 + spec_workload_cost taught_unlisted "UG" default_weights default_limits
          + spec_semester_cost taught_unlisted "UG" default_limits
          + spec_timestamp_cost taught_unlisted "UG" default_weights)%Q.
Proof.
  apply (unlisted_course_has_no_history taught_unlisted ug_section "C1" "UG" "C1,C1,C2").
  - split; reflexivity.
  - reflexivity.
  - reflexivity.
Defined.

(** ** Data preparation: preference ranks *)

Lemma enumerate_snoc {A : Type} (xs : list A) (x : A) :
  enumerate (xs ++ [x]) = enumerate xs ++ [(length xs, x)].
Proof.
  unfold enumerate. rewrite length_app. cbn [length].
  rewrite Nat.add_1_r, seq_S, zip_with_app by (by rewrite length_seq). done.
Qed.

Lemma row_preferences_snoc (cells : list (option string)) (cell : option string) :
  row_preferences (cells ++ [cell])
    = match cell with
      | Some course => <[course := Z.of_nat (length cells) + 1]> (row_preferences cells)
      | None => row_preferences cells
      end.
Proof. unfold row_preferences. by rewrite enumerate_snoc, fold_left_app. Qed.

Lemma row_preferences_lookup (cells : list (option string)) (course : string) (r : Z) :
  row_preferences cells !! course = Some r
  <-> exists i : nat,
        cells !! i = Some (Some course) /\ r = Z.of_nat i + 1 /\
        forall j : nat, (i < j)%nat -> cells !! j <> Some (Some course).
Proof.
  induction cells as [|cell cells IH] using rev_ind.
  - change (row_preferences []) with (∅ : gmap string Z).
    split; [by rewrite lookup_empty|]. by intros (i & Hi & _).
  - rewrite row_preferences_snoc.
    assert (Hlast : forall i, (cells ++ [cell]) !! i = Some (Some course) ->
              (i < length cells)%nat /\ cells !! i = Some (Some course) \/
              i = length cells /\ cell = Some course).
    { intros i Hi. destruct (decide (i < length cells)%nat) as [Hlt|Hge].
      - left. split; [done|]. by rewrite lookup_app_l in Hi.
      - right. rewrite lookup_app_r in Hi by lia.
        apply list_lookup_singleton_Some in Hi as [Hi <-]. split; [lia|done]. }
    destruct (decide (cell = Some course)) as [->|Hne].
    + rewrite lookup_insert_eq. split.
      * intros [= <-]. exists (length cells). split; [|split; [done|]].
        -- by rewrite lookup_app_r, Nat.sub_diag.
        -- intros j Hj Hcj. apply Hlast in Hcj as [[? _]|[? _]]; lia.
      * intros (i & Hi & -> & Hlater). f_equal.
        apply Hlast in Hi as [[Hlt _]|[-> _]]; [|done].
        destruct (Hlater (length cells) Hlt). by rewrite lookup_app_r, Nat.sub_diag.
    + assert (Hrow : (match cell with
                      | Some c => <[c := Z.of_nat (length cells) + 1]> (row_preferences cells)
                      | None => row_preferences cells
                      end) !! course = row_preferences cells !! course).
      { destruct cell as [c|]; [|done]. rewrite lookup_insert_ne; [done|congruence]. }
      rewrite Hrow, IH. split.
      * intros (i & Hi & -> & Hlater). exists i.
        pose proof (lookup_lt_Some _ _ _ Hi) as Hlt.
        split; [by rewrite lookup_app_l|]. split; [done|].
        intros j Hj Hcj. apply Hlast in Hcj as [[_ Hcj]|[_ ?]]; [|done].
        by apply (Hlater j).
      * intros (i & Hi & -> & Hlater). apply Hlast in Hi as [[Hlt Hi]|[_ ?]]; [|done].
        exists i. split; [done|]. split; [done|]. intros j Hj Hcj.
        apply (Hlater j Hj). pose proof (lookup_lt_Some _ _ _ Hcj).
        by rewrite lookup_app_l.
Qed.

(** X19: In the preferences dictionary built from a row, a course gets the
    1-based index of the last preference column that names it: a course
    named in several columns keeps only the later rank. *)
Theorem row_preferences_last_column_wins (cells : list (option string))
    (course : string) (i : nat) :
  cells !! i = Some (Some course) ->
  (forall j : nat, (i < j)%nat -> cells !! j <> Some (Some course)) ->
  row_preferences cells !! course = Some (Z.of_nat i + 1).
Proof.
  intros Hi Hlater. apply row_preferences_lookup. by exists i.
Qed.

(** X20: Every rank in the preferences dictionary built from a row lies
    between 1 and the number of preference columns, and every key is the
    content of one of the row's cells. *)
Theorem row_preferences_ranks (cells : list (option string)) :
  map_Forall (fun course rank =>
                1 <= rank <= Z.of_nat (length cells) /\ Some course ∈ cells)
             (row_preferences cells).
Proof.
  intros course r (i & Hi & -> & _)%row_preferences_lookup.
  pose proof (lookup_lt_Some _ _ _ Hi). split; [lia|].
  by eapply list_elem_of_lookup_2.
Qed.

Lemma row_preferences_last_column_wins_witness :
  row_preferences [Some "C1"; Some "C2"; None; Some "C1"] !! "C1"
    = Some (Z.of_nat 3 + 1).
Proof.
  apply (row_preferences_last_column_wins [Some "C1"; Some "C2"; None; Some "C1"] "C1" 3).
  - reflexivity.
  - intros [|[|[|[|[|j]]]]] Hj; try lia; discriminate.
Defined.

(** X21: A course whose last mention in the row is in the fourth or a
    later preference column (the PG preference columns) gets preference
    cost 30 in compute_cost: a first PG preference is never free. *)
Theorem later_preference_costs_thirty (f : Faculty) (course : dict)
    (code type : string) (w : Weights) (l : Limits)
    (cells : list (option string)) (i : nat) :
  section_of course code type ->
  preferences f = row_preferences cells ->
  cells !! i = Some (Some code) ->
  (forall j : nat, (i < j)%nat -> cells !! j <> Some (Some code)) ->
  (3 <= i)%nat ->
  compute_cost f course w l
    = inr (30 + spec_workload_cost f type w l + spec_semester_cost f type l
           + spec_history_cost f code w + spec_timestamp_cost f type w)%Q.
Proof.
  intros Hsec Hp Hi Hlater H3. rewrite (compute_cost_spec f course code type) by done.
  unfold spec_cost. rewrite Hp.
  rewrite (proj2 (row_preferences_lookup cells code (Z.of_nat i + 1)))
    by (by exists i).
  rewrite <- spec_preference_cost_eq.
  by rewrite (proj2 (Z.eqb_neq _ 1)), (proj2 (Z.eqb_neq _ 2)), (proj2 (Z.eqb_neq _ 3))
    by lia.
Qed.

Lemma later_preference_costs_thirty_witness :
  compute_cost pg_first_choice pg_section default_weights default_limits
    = inr (30 + spec_workload_cost pg_first_choice "PG" default_weights default_limits
           + spec_semester_cost pg_first_choice "PG" default_limits
           + spec_history_cost pg_first_choice "C2" default_weights
           + spec_timestamp_cost pg_first_choice "PG" default_weights)%Q.
Proof.
  apply (later_preference_costs_thirty pg_first_choice pg_section "C2" "PG"
           default_weights default_limits
           [Some "U1"; Some "U2"; Some "U3"; Some "C2"; Some "P2"; Some "P3"] 3).
  - split; reflexivity.
  - reflexivity.
  - reflexivity.
  - intros [|[|[|[|[|[|j]]]]]] Hj; try lia; discriminate.
  - lia.
Defined.

(** ** Data preparation: timestamps *)

Section Timestamps.
Local Open Scope Q_scope.

Lemma fold_min_le_init (rest : list Q) (t : Q) : fold_left Qmin rest t <= t.
Proof.
  revert t. induction rest as [|y rest IH]; intros t; cbn [fold_left].
  - apply Qle_refl.
  - eapply Qle_trans; [apply IH|]. apply Q.le_min_l.
Qed.

Lemma fold_min_le (rest : list Q) (t x : Q) :
  x ∈ t :: rest -> fold_left Qmin rest t <= x.
Proof.
  intros [->|Hx]%elem_of_cons; [apply fold_min_le_init|].
  revert t. induction rest as [|y rest IH]; intros t; [by apply elem_of_nil in Hx|].
  cbn [fold_left]. apply elem_of_cons in Hx as [->|Hx].
  - eapply Qle_trans; [apply fold_min_le_init|]. apply Q.le_min_r.
  - by apply IH.
Qed.

Lemma fold_min_glb (rest : list Q) (t a : Q) :
  (forall x, x ∈ t :: rest -> a <= x) -> a <= fold_left Qmin rest t.
Proof.
  revert t. induction rest as [|y rest IH]; intros t Ha; cbn [fold_left].
  - apply Ha. by left.
  - apply IH. intros x [->|Hx]%elem_of_cons.
    + apply Q.min_glb; apply Ha; [by left|right; by left].
    + apply Ha. right. by right.
Qed.

Lemma fold_max_ge_init (rest : list Q) (t : Q) : t <= fold_left Qmax rest t.
Proof.
  revert t. induction rest as [|y rest IH]; intros t; cbn [fold_left].
  - apply Qle_refl.
  - eapply Qle_trans; [|apply IH]. apply Q.le_max_l.
Qed.

Lemma fold_max_ge (rest : list Q) (t x : Q) :
  x ∈ t :: rest -> x <= fold_left Qmax rest t.
Proof.
  intros [->|Hx]%elem_of_cons; [apply fold_max_ge_init|].
  revert t. induction rest as [|y rest IH]; intros t; [by apply elem_of_nil in Hx|].
  cbn [fold_left]. apply elem_of_cons in Hx as [->|Hx].
  - eapply Qle_trans; [|apply fold_max_ge_init]. apply Q.le_max_r.
  - by apply IH.
Qed.

Lemma fold_max_lub (rest : list Q) (t b : Q) :
  (forall x, x ∈ t :: rest -> x <= b) -> fold_left Qmax rest t <= b.
Proof.
  revert t. induction rest as [|y rest IH]; intros t Hb; cbn [fold_left].
  - apply Hb. by left.
  - apply IH. intros x [->|Hx]%elem_of_cons.
    + apply Q.max_lub; apply Hb; [by left|right; by left].
    + apply Hb. right. by right.
Qed.

(** The normalisation is one function applied to every instant. *)
Lemma normalize_timestamps_fmap (t : Q) (rest : list Q) :
  let lo := fold_left Qmin rest t in
  let hi := fold_left Qmax rest t in
  (hi - lo == 0 /\ normalize_timestamps (t :: rest) = (fun _ => 0) <$> (t :: rest)) \/
  (0 < hi - lo /\
   normalize_timestamps (t :: rest) = (fun x => (x - lo) / (hi - lo)) <$> (t :: rest)).
Proof.
  intros lo hi. unfold normalize_timestamps. fold lo hi.
  destruct (Qeq_bool (hi - lo) 0) eqn:Hz.
  - left. split; [by apply Qeq_bool_eq|done].
  - right. split; [|done].
    assert (lo <= hi).
    { eapply Qle_trans; [apply (fold_min_le rest t t); by left|].
      apply (fold_max_ge rest t t). by left. }
    apply Qeq_bool_neq in Hz. 
    destruct (Qlt_le_dec 0 (hi - lo)) as [|Hle]; [done|].
    destruct Hz. lra.
Qed.

(** X22: Every normalised timestamp lies in [0, 1]. *)
Theorem normalize_timestamps_unit_interval (column : list Q) (i : nat) (t : Q) :
  column !! i = Some t ->
  exists n, normalize_timestamps column !! i = Some n /\ 0 <= n <= 1.
Proof.
  destruct column as [|t0 rest]; [done|]. intros Hi.
  pose proof (list_elem_of_lookup_2 _ _ _ Hi) as Hin.
  pose proof (fold_min_le rest t0 t Hin) as Hlo.
  pose proof (fold_max_ge rest t0 t Hin) as Hhi.
  destruct (normalize_timestamps_fmap t0 rest) as [[_ ->]|[Hpos ->]];
    rewrite list_lookup_fmap, Hi; cbn; eexists; (split; [reflexivity|]).
  - lra.
  - split.
    + apply Qle_shift_div_l; [done|]. lra.
    + apply Qle_shift_div_r; [done|]. lra.
Qed.

Lemma normalize_timestamps_unit_interval_witness :
  exists n, normalize_timestamps [10; 40; 20] !! 2%nat = Some n /\ 0 <= n <= 1.
Proof.
  apply (normalize_timestamps_unit_interval [10; 40; 20] 2 20).
  reflexivity.
Defined.

(** X23: Normalisation preserves the order of submission: an instant that
    is not later gets a normalised value that is not larger. *)
Theorem normalize_timestamps_monotone (column : list Q) (i j : nat) (a b : Q) :
  column !! i = Some a -> column !! j = Some b -> a <= b ->
  exists na nb,
    normalize_timestamps column !! i = Some na /\
    normalize_timestamps column !! j = Some nb /\
    na <= nb.
Proof.
  destruct column as [|t0 rest]; [done|]. intros Hi Hj Hab.
  destruct (normalize_timestamps_fmap t0 rest) as [[_ ->]|[Hpos ->]];
    rewrite !list_lookup_fmap, Hi, Hj; cbn; eexists _, _;
    (split; [reflexivity|]); (split; [reflexivity|]).
  - lra.
  - apply Qmult_le_compat_r; [lra|]. apply Qlt_le_weak, Qinv_lt_0_compat. done.
Qed.

Lemma normalize_timestamps_monotone_witness :
  exists na nb,
    normalize_timestamps [10; 40; 20] !! 0%nat = Some na /\
    normalize_timestamps [10; 40; 20] !! 2%nat = Some nb /\
    na <= nb.
Proof.
  apply (normalize_timestamps_monotone [10; 40; 20] 0 2 10 20).
  - reflexivity.
  - reflexivity.
  - discriminate.
Defined.

(** X24: When the earliest and the latest instant of the column differ,
    the earliest is normalised to 0 and the latest to 1. *)
Theorem normalize_timestamps_endpoints (column : list Q) (i j : nat) (a b : Q) :
  column !! i = Some a -> column !! j = Some b -> a < b ->
  (forall t, t ∈ column -> a <= t <= b) ->
  exists na nb,
    normalize_timestamps column !! i = Some na /\
    normalize_timestamps column !! j = Some nb /\
    na == 0 /\ nb == 1.
Proof.
  destruct column as [|t0 rest]; [done|]. intros Hi Hj Hab Hbounds.
  assert (Hlo : fold_left Qmin rest t0 == a).
  { apply Qle_antisym.
    - apply fold_min_le. by eapply list_elem_of_lookup_2.
    - apply fold_min_glb. intros x Hx. by apply Hbounds. }
  assert (Hhi : fold_left Qmax rest t0 == b).
  { apply Qle_antisym.
    - apply fold_max_lub. intros x Hx. by apply Hbounds.
    - apply fold_max_ge. by eapply list_elem_of_lookup_2. }
  destruct (normalize_timestamps_fmap t0 rest) as [[Hz _]|[Hpos ->]]; [lra|].
  rewrite !list_lookup_fmap, Hi, Hj. cbn. eexists _, _.
  do 2 (split; [reflexivity|]). rewrite Hlo, Hhi. split; field; lra.
Qed.

Lemma normalize_timestamps_endpoints_witness :
  exists na nb,
    normalize_timestamps [10; 40; 20] !! 0%nat = Some na /\
    normalize_timestamps [10; 40; 20] !! 1%nat = Some nb /\
    na == 0 /\ nb == 1.
Proof.
  apply (normalize_timestamps_endpoints [10; 40; 20] 0 1 10 40).
  - reflexivity.
  - reflexivity.
  - reflexivity.
  - intros t Ht. repeat (apply elem_of_cons in Ht as [->|Ht]);
      [split; discriminate..|by apply elem_of_nil in Ht].
Defined.

(** X25: When all instants of the column coincide, every normalised
    timestamp is 0 (no division by the zero range). *)
Theorem normalize_timestamps_coinciding (column : list Q) (t : Q) :
  (forall x, x ∈ column -> x == t) ->
  normalize_timestamps column = (fun _ => 0) <$> column.
Proof.
  destruct column as [|t0 rest]; [done|]. intros Hall.
  destruct (normalize_timestamps_fmap t0 rest) as [[_ ->]|[Hpos _]]; [done|].
  exfalso.
  assert (fold_left Qmax rest t0 <= t)
    by (apply fold_max_lub; intros x Hx; rewrite (Hall x Hx); apply Qle_refl).
  assert (t <= fold_left Qmin rest t0)
    by (apply fold_min_glb; intros x Hx; rewrite (Hall x Hx); apply Qle_refl).
  lra.
Qed.

Lemma normalize_timestamps_coinciding_witness :
  normalize_timestamps [7; 7] = (fun _ => 0) <$> [7; 7].
Proof.
  apply (normalize_timestamps_coinciding [7; 7] 7).
  intros x Hx. repeat (apply elem_of_cons in Hx as [->|Hx]);
    [reflexivity..|by apply elem_of_nil in Hx].
Defined.

End Timestamps.
